(** * count_lines.py: statement counting and line classification

    A shallow embedding of [src/count_lines.py].  The Python standard
    library functions the program calls ([ast.parse],
    [tokenize.generate_tokens], [open(...).read()], [re.Pattern.match]) are
    not part of the program; they are taken as parameters, and the program's
    own code is embedded over their results. *)

From Stdlib Require Import ZArith String Ascii List Bool Lia.
From stdpp Require Import base decidable list gmap sets strings pretty.

Set Warnings "-register-all,-clear-no-such-hyp".

Local Open Scope string_scope.

(** ** Exceptions and results *)

(** The exception classes that can reach [analyze_file]'s [except] clauses,
    with the part of Python's class hierarchy that decides them. *)
Inductive exception : Type :=
  | FileNotFoundError
  | PermissionError
  | IsADirectoryError
  | OSError
  | SyntaxError
  | IndentationError
  | TabError
  | TokenError
  | AssertionError
  | ValueError
  | UnicodeDecodeError
  | RecursionError
  | MemoryError.

#[global] Instance exception_eq_dec : EqDecision exception.
Proof. solve_decision. Defined.

(** The nearest base class among these, below [Exception]. *)
Definition base_class (e : exception) : option exception :=
  match e with
  | FileNotFoundError | PermissionError | IsADirectoryError => Some OSError
  | IndentationError => Some SyntaxError
  | TabError => Some IndentationError
  | UnicodeDecodeError => Some ValueError
  | OSError | SyntaxError | TokenError | AssertionError | ValueError
  | RecursionError | MemoryError => None
  end.

(** [isinstance(e, cls)] for an exception object of class [e]; the hierarchy
    above is at most three levels deep. *)
Definition isinstance_exc (e cls : exception) : bool :=
  bool_decide (e = cls)
  || match base_class e with
     | Some b =>
         bool_decide (b = cls)
         || match base_class b with
            | Some b' => bool_decide (b' = cls)
            | None => false
            end
     | None => false
     end.

(** What a call does: it returns a value or raises. *)
Inductive result (A : Type) : Type :=
  | Returns (a : A)
  | Raises (e : exception).
Arguments Returns {A} a.
Arguments Raises {A} e.

(** ** The syntax tree ([ast]) *)

Module ast.

(** The class of an expression node.  The program only ever tests the class
    of [Expr.value]; sub-expressions are never visited. *)
Inductive expr : Type :=
  | BoolOp | NamedExpr | BinOp | UnaryOp | Lambda | IfExp | Dict | Set_
  | ListComp | SetComp | DictComp | GeneratorExp
  | Await | Yield | YieldFrom
  | Compare | Call | FormattedValue | JoinedStr | Constant
  | Attribute | Subscript | Starred | Name | List | Tuple | Slice.

(** The nodes [tranverse_ast_stmt] can be handed, with the attributes it
    reads.  [match_case] is the one class here that is neither a statement
    nor handled by a branch of the traversal. *)
Inductive node : Type :=
  | Module (body : list node)
  | With (body : list node)
  | AsyncWith (body : list node)
  | ExceptHandler (body : list node)
  | AsyncFunctionDef (name : string) (body : list node)
  | FunctionDef (name : string) (body : list node)
  | ClassDef (name : string) (body : list node)
  | Return | Delete | Assign | AugAssign
  | Raise | Assert | Import | ImportFrom
  | Global | Nonlocal | Pass | Break | Continue
  | Expr (value : expr)
  | For (body orelse : list node)
  | AsyncFor (body orelse : list node)
  | While (body orelse : list node)
  | If (body orelse : list node)
  | Try (body handlers orelse finalbody : list node)
  | AnnAssign
  | Match (cases : list node)
  | TryStar (body handlers orelse finalbody : list node)
  | match_case (body : list node).

(** [isinstance(node, ast.stmt)]. *)
Definition is_stmt (n : node) : bool :=
  match n with
  | Module _ | ExceptHandler _ | match_case _ => false
  | _ => true
  end.

End ast.

(** ** The counter monad

    [count_statements] keeps one [nonlocal] counter that the callback
    increments; a computation takes the counter and either returns a value
    with the new counter or raises. *)
Definition M (A : Type) : Type := nat → result (A * nat).

Definition ret {A} (a : A) : M A := λ count, Returns (a, count).

Definition bind {A B} (m : M A) (k : A → M B) : M B :=
  λ count,
    match m count with
    | Returns (a, count') => k a count'
    | Raises e => Raises e
    end.

Definition raise {A} (e : exception) : M A := λ _, Raises e.

(** [count += k] *)
Definition add_count (k : nat) : M unit := λ count, Returns (tt, count + k).

#[global] Instance M_ret : MRet M := @ret.
#[global] Instance M_bind : MBind M := λ A B k m, bind m k.

(** [for stmt in stmts: f(stmt)] *)
Definition for_each {A} (f : A → M unit) : list A → M unit :=
  fix go (stmts : list A) : M unit :=
    match stmts with
    | [] => ret tt
    | stmt :: rest => f stmt ;; go rest
    end.

(** ** [tranverse_ast_stmt]

    The function below follows the calls of a run that stays within the
    interpreter's recursion limit.  Python raises [RecursionError] when the
    frames of a run outnumber [sys.getrecursionlimit()]; how many frames are
    left to the walk depends on the interpreter and on the caller, not on
    this function, and a tree nested deeper than that makes the real walk
    raise where this one goes on.  What is stated below of the result of a
    walk is stated of the runs within the limit. *)

Section traversal.
Import ast.
Variable callback : node → M bool.

Fixpoint tranverse_ast_stmt (n : node) : M unit :=
  continue_tranversal ← callback n;
  if negb continue_tranversal then ret tt
  else
    match n with
    | Module body | With body | AsyncWith body | ExceptHandler body
    | AsyncFunctionDef _ body | FunctionDef _ body | ClassDef _ body =>
        for_each tranverse_ast_stmt body
    | Return | Delete | Assign | AugAssign
    | Raise | Assert | Import | ImportFrom
    | Global | Nonlocal | Pass | Break | Continue
    | Expr _ =>
        ret tt
    | For body orelse | AsyncFor body orelse
    | While body orelse | If body orelse =>
        for_each tranverse_ast_stmt body ;;
        for_each tranverse_ast_stmt orelse
    | Try body handlers orelse finalbody =>
        for_each tranverse_ast_stmt body ;;
        for_each tranverse_ast_stmt handlers ;;
        for_each tranverse_ast_stmt orelse ;;
        for_each tranverse_ast_stmt finalbody
    | AnnAssign | Match _ | TryStar _ _ _ _ | match_case _ =>
        if is_stmt n then ret tt else raise AssertionError
    end.
End traversal.

(** ** The standard library the program runs on *)

Module re.
(** A compiled regular expression, known by what the program asks of it:
    [matches p s] is [p.match(s) is not None]. *)
Record Pattern : Type := { matches : string → bool }.
End re.

Module token.
(** The token types [tokenize] yields (every operator has type [OP]). *)
Inductive type : Type :=
  | ENDMARKER | NAME | NUMBER | STRING | NEWLINE | INDENT | DEDENT | OP
  | AWAIT | ASYNC | TYPE_IGNORE | TYPE_COMMENT | SOFT_KEYWORD
  | ERRORTOKEN | COMMENT | NL | ENCODING.

#[global] Instance type_eq_dec : EqDecision type.
Proof. solve_decision. Defined.
End token.

Module tokenize.
(** [tokenize.TokenInfo]; [start] and [end_] are (row, column) pairs and
    [line] is the text of the physical line(s) the token was read from. *)
Record TokenInfo : Type := {
  type : token.type;
  string : String.string;
  start : Z * Z;
  end_ : Z * Z;
  line : String.string;
}.
End tokenize.

(** The library calls of the program: [ast.parse(source_code)],
    [list(tokenize.generate_tokens(io.StringIO(source_code).readline))] and
    [open(path, 'r', encoding='utf-8').read()], each returning or raising. *)
Class PyLib : Type := {
  ast_parse : string → result ast.node;
  generate_tokens : string → result (list tokenize.TokenInfo);
  open_read : string → result string;
}.

(** ** [count_statements] *)

Section count_statements.
Import ast.
Context `{PyLib}.

(** [isinstance(v, (ast.Await, ast.Yield, ast.YieldFrom, ast.Call))] *)
Definition is_await_yield_call (v : expr) : bool :=
  match v with
  | Await | Yield | YieldFrom | Call => true
  | _ => false
  end.

(** The callback of [count_statements]; [count] is the monad's counter. *)
Definition _node_effective_count
    (exclude_name_patterns : list re.Pattern) (n : node) : M bool :=
  match n with
  | Module _ => add_count 0
  | Expr v => if is_await_yield_call v then add_count 1 else ret tt
  | _ => add_count 1
  end ;;
  match n with
  | FunctionDef name _ | AsyncFunctionDef name _ | ClassDef name _ =>
      if existsb (λ p, re.matches p name) exclude_name_patterns
      then ret false
      else ret true
  | _ => ret true
  end.

Definition count_statements
    (source_code : string) (exclude_name_patterns : option (list re.Pattern))
  : result nat :=
  match ast_parse source_code with
  | Raises e => Raises e
  | Returns root_node =>
      let count := 0 in
      let exclude_name_patterns := default [] exclude_name_patterns in
      match
        tranverse_ast_stmt (_node_effective_count exclude_name_patterns)
          root_node count
      with
      | Returns (_, count) => Returns count
      | Raises e => Raises e
      end
  end.
End count_statements.

(** ** [count_lines] *)

(** Characters and delimiters the program names. *)
Definition LF : ascii := ascii_of_nat 10.
Definition CR : ascii := ascii_of_nat 13.
Definition TAB : ascii := ascii_of_nat 9.
Definition SPACE : ascii := ascii_of_nat 32.
Definition FF : ascii := ascii_of_nat 12.
Definition VT : ascii := ascii_of_nat 11.
Definition DQUOTE : ascii := ascii_of_nat 34.
Definition triple_single : string := "'''".
Definition triple_double : string :=
  String DQUOTE (String DQUOTE (String DQUOTE EmptyString)).

(** [io.StringIO(s).readlines()]: a [StringIO] ends a line at each line feed
    only, and keeps it; a last line with no line feed still counts. *)
Fixpoint readlines_from (cur : string) (s : string) : list string :=
  match s with
  | EmptyString =>
      match cur with EmptyString => [] | _ => [String.rev cur] end
  | String c rest =>
      if bool_decide (c = LF)
      then String.rev (String c cur) :: readlines_from EmptyString rest
      else readlines_from (String c cur) rest
  end.

Definition readlines (s : string) : list string := readlines_from EmptyString s.

(** [s.replace(c, "")] for a one-character [c]. *)
Fixpoint remove_char (c : ascii) (s : string) : string :=
  match s with
  | EmptyString => EmptyString
  | String a rest =>
      if bool_decide (a = c) then remove_char c rest
      else String a (remove_char c rest)
  end.

(** [s.startswith(p)] and [s.endswith(p)] *)
Definition startswith (s p : string) : bool := String.prefix p s.

Definition endswith (s p : string) : bool :=
  String.prefix (String.rev p) (String.rev s).

Section count_lines.
Context `{PyLib}.

(** [list(range(t.start[0], t.end[0] + 1))] *)
Definition spanned_lines (t : tokenize.TokenInfo) : list Z :=
  seqZ (tokenize.start t).1 ((tokenize.end_ t).1 + 1 - (tokenize.start t).1).

(** [s.update(l)] *)
Definition update (s : gset Z) (l : list Z) : gset Z := s ∪ list_to_set l.

(** One round of the first loop, on [(nonblank_lines, inline_comment_lines)]. *)
Definition first_pass_step (sets : gset Z * gset Z) (t : tokenize.TokenInfo)
  : gset Z * gset Z :=
  let '(nonblank_lines, inline_comment_lines) := sets in
  if bool_decide (tokenize.type t ∈ [token.ENCODING; token.ENDMARKER; token.NEWLINE;
                            token.INDENT; token.DEDENT; token.NL])
  then sets
  else if bool_decide (tokenize.type t ∈ [token.COMMENT; token.TYPE_COMMENT])
  then (update nonblank_lines (spanned_lines t),
        update inline_comment_lines (spanned_lines t))
  else if bool_decide (tokenize.type t ∈ [token.STRING])
  then sets
  else (update nonblank_lines (spanned_lines t), inline_comment_lines).

(** The test of the second loop on [t.line]. *)
Definition is_block_comment_line (t_line : string) : bool :=
  let line :=
    remove_char CR (remove_char TAB (remove_char SPACE (remove_char LF t_line)))
  in
  (startswith line triple_single && endswith line triple_single)
  || (startswith line triple_double && endswith line triple_double).

(** One round of the inner loop, on [(nonblank_lines, block_comment_lines)]. *)
Definition add_block_line (sets : gset Z * gset Z) (lineno : Z)
  : gset Z * gset Z :=
  let '(nonblank_lines, block_comment_lines) := sets in
  if bool_decide (lineno ∉ nonblank_lines)
  then (nonblank_lines ∪ {[lineno]}, block_comment_lines ∪ {[lineno]})
  else sets.

(** One round of the second loop, on [(nonblank_lines, block_comment_lines)]. *)
Definition second_pass_step (sets : gset Z * gset Z) (t : tokenize.TokenInfo)
  : gset Z * gset Z :=
  if bool_decide (tokenize.type t = token.STRING)
  then
    if is_block_comment_line (tokenize.line t)
    then foldl add_block_line sets (spanned_lines t)
    else sets
  else sets.

(** The three sets when both loops are done:
    [(nonblank_lines, inline_comment_lines, block_comment_lines)]. *)
Definition line_sets (tokens : list tokenize.TokenInfo) : gset Z * gset Z * gset Z :=
  let '(nonblank_lines, inline_comment_lines) :=
    foldl first_pass_step (∅, ∅) tokens in
  let '(nonblank_lines, block_comment_lines) :=
    foldl second_pass_step (nonblank_lines, ∅) tokens in
  (nonblank_lines, inline_comment_lines, block_comment_lines).

Definition count_lines (source_code : string) : result (nat * nat * nat) :=
  let num_lines := length (readlines source_code) in
  match generate_tokens source_code with
  | Raises e => Raises e
  | Returns tokens =>
      let '(nonblank_lines, inline_comment_lines, block_comment_lines) :=
        line_sets tokens in
      Returns (num_lines,
               size nonblank_lines,
               size (inline_comment_lines ∪ block_comment_lines))
  end.
End count_lines.

(** ** [analyze_file] *)

Section analyze_file.
Context `{PyLib}.

(** What [analyze_file] leaves behind: the value it returns or the exception
    that leaves it, and the messages it handed to [logging.info]. *)
Record outcome : Type := {
  returned : result (option (nat * nat * nat * nat));
  logged : list string;
}.

(** The body of the [try] block, up to the first exception. *)
Definition analyze_file_try
    (path : string) (exclude_name_patterns : option (list re.Pattern))
  : result (nat * nat * nat * nat) :=
  match open_read path with
  | Raises e => Raises e
  | Returns source_code =>
      match count_statements source_code exclude_name_patterns with
      | Raises e => Raises e
      | Returns num_statement =>
          match count_lines source_code with
          | Raises e => Raises e
          | Returns (num_line, num_nonblank_line, num_commented_line) =>
              Returns (num_line, num_nonblank_line, num_statement,
                       num_commented_line)
          end
      end
  end.

Definition analyze_file
    (path : string) (exclude_name_patterns : option (list re.Pattern))
  : outcome :=
  match analyze_file_try path exclude_name_patterns with
  | Returns r => {| returned := Returns (Some r); logged := [] |}
  | Raises e =>
      if isinstance_exc e FileNotFoundError || isinstance_exc e OSError
      then {| returned := Returns None;
              logged := ["Failed to open: " +:+ path] |}
      else if isinstance_exc e SyntaxError || isinstance_exc e TokenError
      then {| returned := Returns None;
              logged := ["File has syntax error: " +:+ path] |}
      else {| returned := Raises e; logged := [] |}
  end.
End analyze_file.

(** ** Sample inputs *)

(** [re.compile("test")]: [match] succeeds on the names that begin with
    [test]. *)
Definition test_pattern : re.Pattern := {| re.matches := String.prefix "test" |}.

(** The tree of
<<
def test_a():
    def test_b():
        pass
>> *)
Definition nested_tests : ast.node :=
  ast.Module
    [ast.FunctionDef "test_a" [ast.FunctionDef "test_b" [ast.Pass]]].

(** The same text without the inner definition (and a docstring in its
    place). *)
Definition outer_test_only : ast.node :=
  ast.Module [ast.FunctionDef "test_a" [ast.Expr ast.Constant]].

(** The tree of
<<
x: int = 1
match x:
    case 1:
        pass
try:
    pass
except* E:
    pass
>> *)
Definition newer_statements : ast.node :=
  ast.Module
    [ast.AnnAssign;
     ast.Match [ast.match_case [ast.Pass]];
     ast.TryStar [ast.Pass] [ast.ExceptHandler [ast.Pass]] [] []].

(** A line feed as a text. *)
Definition newline : string := String LF EmptyString.

(** The text of five lines: a comment, a blank line, and a block of three
    lines opened and closed by three double quotes, each ended by a line
    feed. *)
Definition comment_and_block : string :=
  "# comment" +:+ newline +:+ newline +:+ triple_double +:+ newline
  +:+ "block" +:+ newline +:+ triple_double +:+ newline.

Definition TokenInfo (ty : token.type) (s : string) (start end_ : Z * Z)
    (line : string) : tokenize.TokenInfo :=
  {| tokenize.type := ty; tokenize.string := s; tokenize.start := start;
     tokenize.end_ := end_; tokenize.line := line |}.

(** The tokens CPython 3.11 yields for [comment_and_block]; the string token
    spans rows 3 to 5 and its [line] holds all three physical lines. *)
Definition comment_and_block_tokens : list tokenize.TokenInfo :=
  let block :=
    triple_double +:+ newline +:+ "block" +:+ newline +:+ triple_double in
  [TokenInfo token.COMMENT "# comment" (1, 0)%Z (1, 9)%Z
     ("# comment" +:+ newline);
   TokenInfo token.NL newline (1, 9)%Z (1, 10)%Z ("# comment" +:+ newline);
   TokenInfo token.NL newline (2, 0)%Z (2, 1)%Z newline;
   TokenInfo token.STRING block (3, 0)%Z (5, 3)%Z (block +:+ newline);
   TokenInfo token.NEWLINE newline (5, 3)%Z (5, 4)%Z
     (triple_double +:+ newline);
   TokenInfo token.ENDMARKER EmptyString (6, 0)%Z (6, 0)%Z EmptyString].

(** The only token of the empty text. *)
Definition empty_tokens : list tokenize.TokenInfo :=
  [TokenInfo token.ENDMARKER EmptyString (1, 0)%Z (1, 0)%Z EmptyString].

(** A docstring in single quotes followed by a form feed and a line feed,
    and its tokens: the form feed is blank space to the tokenizer. *)
Definition form_feed_line : string :=
  triple_single +:+ "doc" +:+ triple_single +:+ String FF newline.

Definition form_feed_string : tokenize.TokenInfo :=
  TokenInfo token.STRING (triple_single +:+ "doc" +:+ triple_single)
    (1, 0)%Z (1, 9)%Z form_feed_line.

Definition form_feed_tokens : list tokenize.TokenInfo :=
  [form_feed_string;
   TokenInfo token.NEWLINE newline (1, 10)%Z (1, 11)%Z form_feed_line;
   TokenInfo token.ENDMARKER EmptyString (2, 0)%Z (2, 0)%Z EmptyString].

(** A docstring of two lines, with text after the opening quotes and before
    the closing ones, and its tokens: the [line] of the string token holds
    both physical lines. *)
Definition two_line_docstring : string :=
  triple_double +:+ "a" +:+ newline +:+ "b" +:+ triple_double +:+ newline.

Definition two_line_string : tokenize.TokenInfo :=
  TokenInfo token.STRING
    (triple_double +:+ "a" +:+ newline +:+ "b" +:+ triple_double)
    (1, 0)%Z (2, 4)%Z two_line_docstring.

Definition two_line_tokens : list tokenize.TokenInfo :=
  [two_line_string;
   TokenInfo token.NEWLINE newline (2, 4)%Z (2, 5)%Z
     ("b" +:+ triple_double +:+ newline);
   TokenInfo token.ENDMARKER EmptyString (3, 0)%Z (3, 0)%Z EmptyString].

(** A text with an unbalanced bracket: [x = (1\n]. *)
Definition unbalanced : string := "x = (1" +:+ newline.

(** Texts with a call statement, each with the same text without it:
    inside a function, inside a function that the pattern [test] excludes,
    and inside a [case] of a [match]. *)
Definition run_with_call : string :=
  "def run():" +:+ newline +:+ "    f()" +:+ newline
  +:+ "    return 1" +:+ newline.

Definition run_without_call : string :=
  "def run():" +:+ newline +:+ "    return 1" +:+ newline.

(** The function with a docstring in place of the call. *)
Definition run_with_docstring : string :=
  "def run():" +:+ newline +:+ "    'doc'" +:+ newline
  +:+ "    return 1" +:+ newline.

Definition test_with_call : string :=
  "def test_a():" +:+ newline +:+ "    f()" +:+ newline
  +:+ "    pass" +:+ newline.

Definition test_without_call : string :=
  "def test_a():" +:+ newline +:+ "    pass" +:+ newline.

Definition match_with_call : string :=
  "match x:" +:+ newline +:+ "    case 1:" +:+ newline
  +:+ "        f()" +:+ newline +:+ "        pass" +:+ newline.

Definition match_without_call : string :=
  "match x:" +:+ newline +:+ "    case 1:" +:+ newline
  +:+ "        pass" +:+ newline.

(** What CPython 3.11 parses these seven texts to.  Only the parser is asked
    here; the other calls, and the parser on any other text, are answered
    with an exception. *)
#[local] Instance call_statements : PyLib := {|
  open_read _ := Raises FileNotFoundError;
  ast_parse source_code :=
    if String.eqb source_code run_with_call
    then Returns (ast.Module
                    [ast.FunctionDef "run" [ast.Expr ast.Call; ast.Return]])
    else if String.eqb source_code run_without_call
    then Returns (ast.Module [ast.FunctionDef "run" [ast.Return]])
    else if String.eqb source_code run_with_docstring
    then Returns (ast.Module
                    [ast.FunctionDef "run" [ast.Expr ast.Constant; ast.Return]])
    else if String.eqb source_code test_with_call
    then Returns (ast.Module
                    [ast.FunctionDef "test_a" [ast.Expr ast.Call; ast.Pass]])
    else if String.eqb source_code test_without_call
    then Returns (ast.Module [ast.FunctionDef "test_a" [ast.Pass]])
    else if String.eqb source_code match_with_call
    then Returns (ast.Module
                    [ast.Match
                       [ast.match_case [ast.Expr ast.Call; ast.Pass]]])
    else if String.eqb source_code match_without_call
    then Returns (ast.Module [ast.Match [ast.match_case [ast.Pass]]])
    else Raises MemoryError;
  generate_tokens _ := Raises MemoryError;
|}.

(** The text [x = 1] with a NUL character before the line feed, and its
    tokens. *)
Definition nul_text : string :=
  "x = 1" +:+ String Ascii.zero newline.

Definition nul_text_tokens : list tokenize.TokenInfo :=
  [TokenInfo token.NAME "x" (1, 0)%Z (1, 1)%Z nul_text;
   TokenInfo token.OP "=" (1, 2)%Z (1, 3)%Z nul_text;
   TokenInfo token.NUMBER "1" (1, 4)%Z (1, 5)%Z nul_text;
   TokenInfo token.ERRORTOKEN (String Ascii.zero EmptyString)
     (1, 5)%Z (1, 6)%Z nul_text;
   TokenInfo token.NEWLINE newline (1, 6)%Z (1, 7)%Z nul_text;
   TokenInfo token.ENDMARKER EmptyString (2, 0)%Z (2, 0)%Z EmptyString].

(** A directory with a file that is not UTF-8, which [read] refuses with a
    [UnicodeDecodeError], and a file holding [nul_text], which [ast.parse]
    of CPython 3.11 refuses with a [ValueError]. *)
#[local] Instance unreadable_files : PyLib := {|
  open_read path :=
    if String.eqb path "latin1.py" then Raises UnicodeDecodeError
    else if String.eqb path "nul.py" then Returns nul_text
    else Raises FileNotFoundError;
  ast_parse source_code :=
    if String.eqb source_code nul_text then Raises ValueError
    else Raises MemoryError;
  generate_tokens source_code :=
    if String.eqb source_code nul_text then Returns nul_text_tokens
    else Raises MemoryError;
|}.

(** A directory of three files and what CPython 3.11 answers on their
    texts.  A text that is not in the table is answered with [MemoryError],
    which any call may raise. *)
#[local] Instance sample_files : PyLib := {|
  open_read path :=
    if String.eqb path "empty.py" then Returns EmptyString
    else if String.eqb path "notes.py" then Returns comment_and_block
    else if String.eqb path "broken.py" then Returns unbalanced
    else Raises FileNotFoundError;
  ast_parse source_code :=
    if String.eqb source_code EmptyString then Returns (ast.Module [])
    else if String.eqb source_code comment_and_block
    then Returns (ast.Module [ast.Expr ast.Constant])
    else if String.eqb source_code unbalanced then Raises SyntaxError
    else Raises MemoryError;
  generate_tokens source_code :=
    if String.eqb source_code EmptyString then Returns empty_tokens
    else if String.eqb source_code comment_and_block
    then Returns comment_and_block_tokens
    else if String.eqb source_code unbalanced then Raises TokenError
    else Raises MemoryError;
|}.

(** A library whose parser hands back a bare [match_case], a node no parse
    returns at that place; it drives the traversal into its assertion. *)
#[local] Instance stray_node : PyLib := {|
  open_read _ := Returns EmptyString;
  ast_parse _ := Returns (ast.match_case []);
  generate_tokens _ := Returns empty_tokens;
|}.

(** ** Notions the statements use *)

(** The token types the first loop passes over. *)
Definition marker_types : list token.type :=
  [token.ENCODING; token.ENDMARKER; token.NEWLINE;
   token.INDENT; token.DEDENT; token.NL].

(** Every token that is not a marker lies on rows [1 .. num_lines]. *)
Definition rows_within (num_lines : nat) (tokens : list tokenize.TokenInfo)
  : Prop :=
  Forall (λ t, tokenize.type t ∉ marker_types →
             (1 ≤ (tokenize.start t).1 ∧ (tokenize.end_ t).1 ≤ Z.of_nat num_lines)%Z)
         tokens.

(** A string token whose [line] passes the test of the second loop. *)
Definition is_block_comment_token (t : tokenize.TokenInfo) : bool :=
  bool_decide (tokenize.type t = token.STRING)
  && is_block_comment_line (tokenize.line t).

(** The rows spanned by the block-comment tokens of a token list. *)
Fixpoint block_comment_span (tokens : list tokenize.TokenInfo) : gset Z :=
  match tokens with
  | [] => ∅
  | t :: rest =>
      (if is_block_comment_token t then list_to_set (spanned_lines t) else ∅)
      ∪ block_comment_span rest
  end.

(** A text without the characters of [cs], in one sweep. *)
Fixpoint without_chars (cs : list ascii) (s : string) : string :=
  match s with
  | EmptyString => EmptyString
  | String a rest =>
      if bool_decide (a ∈ cs) then without_chars cs rest
      else String a (without_chars cs rest)
  end.

(** The nodes directly below a node. *)
Definition children (n : ast.node) : list ast.node :=
  match n with
  | ast.Module body | ast.With body | ast.AsyncWith body
  | ast.ExceptHandler body | ast.AsyncFunctionDef _ body
  | ast.FunctionDef _ body | ast.ClassDef _ body | ast.match_case body =>
      body
  | ast.For body orelse | ast.AsyncFor body orelse
  | ast.While body orelse | ast.If body orelse =>
      body ++ orelse
  | ast.Try body handlers orelse finalbody
  | ast.TryStar body handlers orelse finalbody =>
      body ++ handlers ++ orelse ++ finalbody
  | ast.Match cases => cases
  | _ => []
  end.

(** A result with [k] more on the counter. *)
Definition shift {A} (k : nat) (r : result (A * nat)) : result (A * nat) :=
  match r with
  | Returns (a, count) => Returns (a, count + k)
  | Raises e => Raises e
  end.

(** The physical line of the text on which a token starts. *)
Definition starting_line (source_code : string) (t : tokenize.TokenInfo)
  : string :=
  nth (Z.to_nat ((tokenize.start t).1 - 1)) (readlines source_code)
    EmptyString.

(** The test of the second loop as the specification words it: the token's
    starting line with all whitespace stripped ([string.whitespace]: space,
    tab, line feed, carriage return, vertical tab, form feed) starts and ends
    with the same triple quote.  To be compared with
    [is_block_comment_line] on the token's [line]. *)
Definition spec_is_block_comment (source_code : string)
    (t : tokenize.TokenInfo) : bool :=
  let line :=
    without_chars [SPACE; TAB; LF; CR; VT; FF] (starting_line source_code t) in
  (startswith line triple_single && endswith line triple_single)
  || (startswith line triple_double && endswith line triple_double).

(** ** The traversal and the callback *)

(** ** [find_all_py_files] and [main] *)

(** The file system and formatting calls of [find_all_py_files] and [main],
    taken on runs in which they return: [os.path.exists(root_dir)], the
    paths of [pathlib.Path(root_dir).glob('**/*.py')] as strings, in the
    order the generator yields them, [path.is_file()], the text an f-string
    puts for a compiled pattern, and [re.compile], which answers [None]
    here when it raises [re.error]. *)
Class FileSystem : Type := {
  path_exists : string → bool;
  glob_py : string → list string;
  is_file : string → bool;
  pattern_str : re.Pattern → string;
  re_compile : string → option re.Pattern;
}.

Section find_all_py_files.
Context `{FileSystem}.

(** The inner loop over the patterns: the message of the first pattern that
    matches, at which the loop breaks, or [None] when [is_excluded] stays
    [False]. *)
Fixpoint exclusion_message (exclude_file_patterns : list re.Pattern)
    (fn : string) : option string :=
  match exclude_file_patterns with
  | [] => None
  | p :: rest =>
      if re.matches p fn
      then Some ("Exclude " +:+ fn +:+ " by pattern " +:+ pattern_str p)
      else exclusion_message rest fn
  end.

(** One round of the loop over the paths, on the names yielded and the
    messages logged so far. *)
Definition scan_step (exclude_file_patterns : list re.Pattern)
    (state : list string * list string) (path : string)
  : list string * list string :=
  let '(yielded, logged) := state in
  if negb (is_file path) then state
  else
    let fn := path in
    match exclusion_message exclude_file_patterns fn with
    | Some message => (yielded, (logged ++ [message])%list)
    | None => ((yielded ++ [fn])%list, (logged ++ ["Include " +:+ fn])%list)
    end.

(** The generator run to its end: the names it yields, in order, and the
    messages it logs. *)
Definition find_all_py_files (root_dir : string)
    (exclude_file_patterns : option (list re.Pattern))
  : list string * list string :=
  if negb (path_exists root_dir)
  then ([], ["Root directory " +:+ root_dir +:+ " does not exist"])
  else
    let exclude_file_patterns := default [] exclude_file_patterns in
    foldl (scan_step exclude_file_patterns)
      ([], ["Scanning .py files under " +:+ root_dir])
      (glob_py root_dir).
End find_all_py_files.

(** What ends a run of [main]: [re.error] from [re.compile], or an
    exception that left [analyze_file]. *)
Inductive raised : Type :=
  | ReError
  | Raised (e : exception).

(** The five running totals of [main]:
    [num_file, total_num_line, total_num_nonblank_line, total_num_statement,
    total_num_commented_line]. *)
Record totals : Type := {
  num_file : nat;
  total_num_line : nat;
  total_num_nonblank_line : nat;
  total_num_statement : nat;
  total_num_commented_line : nat;
}.

(** A run of [main]: how it ended ([None] when it returned), the totals it
    had reached and the lines written to the log file, which
    [logging.basicConfig(filemode='w')] starts empty. *)
Record run : Type := {
  ended : option raised;
  reached : totals;
  written : list string;
}.

Section main.
Context `{PyLib} `{FileSystem}.

(** [[re.compile(p) for p in patterns] if patterns else []] *)
Fixpoint compile_all (patterns : list string) : option (list re.Pattern) :=
  match patterns with
  | [] => Some []
  | p :: rest =>
      match re_compile p with
      | None => None
      | Some compiled =>
          match compile_all rest with
          | None => None
          | Some more => Some (compiled :: more)
          end
      end
  end.

Definition compile_patterns (patterns : option (list string))
  : option (list re.Pattern) :=
  match patterns with
  | None | Some [] => Some []
  | Some patterns => compile_all patterns
  end.

(** The message logged for one analyzed file. *)
Definition result_message (fn : string) (result : nat * nat * nat * nat)
  : string :=
  let '(num_line, num_nonblank_line, num_statement, num_commented_line) :=
    result in
  "Result of " +:+ fn +:+ ": #line=" +:+ pretty num_line
  +:+ " #nonblank-line=" +:+ pretty num_nonblank_line
  +:+ " #statement=" +:+ pretty num_statement
  +:+ " #commented-line=" +:+ pretty num_commented_line.

(** The message logged at the end. *)
Definition overall_message (t : totals) : string :=
  "Overall result: #file=" +:+ pretty (num_file t)
  +:+ " #line=" +:+ pretty (total_num_line t)
  +:+ " #nonblank-line=" +:+ pretty (total_num_nonblank_line t)
  +:+ " #statement=" +:+ pretty (total_num_statement t)
  +:+ " #commented-line=" +:+ pretty (total_num_commented_line t).

(** The loop of [main] over the file names, on the totals and the log so
    far; it stops at the first exception that leaves [analyze_file]. *)
Fixpoint analyze_all (exclude_name_patterns : list re.Pattern)
    (filenames : list string) (t : totals) (log : list string) : run :=
  match filenames with
  | [] => {| ended := None; reached := t; written := log |}
  | fn :: rest =>
      let outcome := analyze_file fn (Some exclude_name_patterns) in
      let log := (log ++ logged outcome)%list in
      match returned outcome with
      | Raises e => {| ended := Some (Raised e); reached := t; written := log |}
      | Returns None => analyze_all exclude_name_patterns rest t log
      | Returns (Some (num_line, num_nonblank_line, num_statement,
                       num_commented_line)) =>
          analyze_all exclude_name_patterns rest
            {| num_file := num_file t + 1;
               total_num_line := total_num_line t + num_line;
               total_num_nonblank_line :=
                 total_num_nonblank_line t + num_nonblank_line;
               total_num_statement := total_num_statement t + num_statement;
               total_num_commented_line :=
                 total_num_commented_line t + num_commented_line |}
            (log ++ [result_message fn (num_line, num_nonblank_line,
                                        num_statement, num_commented_line)])%list
      end
  end.

Definition no_totals : totals :=
  {| num_file := 0; total_num_line := 0; total_num_nonblank_line := 0;
     total_num_statement := 0; total_num_commented_line := 0 |}.

Definition main (root_dir output_file : string)
    (exclude_file_patterns exclude_name_patterns : option (list string))
  : run :=
  match compile_patterns exclude_file_patterns with
  | None => {| ended := Some ReError; reached := no_totals; written := [] |}
  | Some exclude_file_patterns =>
      match compile_patterns exclude_name_patterns with
      | None =>
          {| ended := Some ReError; reached := no_totals; written := [] |}
      | Some exclude_name_patterns =>
          let '(filenames, log) :=
            find_all_py_files root_dir (Some exclude_file_patterns) in
          let finished :=
            analyze_all exclude_name_patterns filenames no_totals log in
          match ended finished with
          | Some e => finished
          | None =>
              {| ended := None; reached := reached finished;
                 written :=
                   (written finished
                    ++ [overall_message (reached finished)])%list |}
          end
      end
  end.
End main.

(** ** More notions and sample inputs *)

(** No [match_case] stands where the walk may enter: below a module, a
    block, a definition, a loop, a conditional or a [try] there are only
    nodes that are themselves walkable.  ([Match] and [TryStar] are not
    entered, so what lies below them does not matter.) *)
Fixpoint walkable (n : ast.node) : bool :=
  match n with
  | ast.match_case _ => false
  | ast.Module body | ast.With body | ast.AsyncWith body
  | ast.ExceptHandler body | ast.AsyncFunctionDef _ body
  | ast.FunctionDef _ body | ast.ClassDef _ body =>
      forallb walkable body
  | ast.For body orelse | ast.AsyncFor body orelse
  | ast.While body orelse | ast.If body orelse =>
      forallb walkable body && forallb walkable orelse
  | ast.Try body handlers orelse finalbody =>
      forallb walkable body && forallb walkable handlers
      && forallb walkable orelse && forallb walkable finalbody
  | _ => true
  end.

(** The number of occurrences of a character in a text. *)
Fixpoint count_char (c : ascii) (s : string) : nat :=
  match s with
  | EmptyString => 0
  | String a rest =>
      (if bool_decide (a = c) then 1 else 0) + count_char c rest
  end.

(** A text that is not empty and does not end with a line feed. *)
Fixpoint unterminated (s : string) : bool :=
  match s with
  | EmptyString => false
  | String a EmptyString => negb (bool_decide (a = LF))
  | String _ rest => unterminated rest
  end.

(** The file results that [main] adds up: those of the files for which
    [analyze_file] returns a tuple. *)
Definition analyzed `{PyLib} (exclude_name_patterns : list re.Pattern)
    (filenames : list string) : list (nat * nat * nat * nat) :=
  omap (λ fn,
          match returned (analyze_file fn (Some exclude_name_patterns)) with
          | Returns r => r
          | Raises _ => None
          end)
       filenames.

(** The token types the first loop marks a row nonblank for: neither a
    marker nor a string. *)
Definition marks_nonblank (t : tokenize.TokenInfo) : bool :=
  bool_decide (tokenize.type t ∉ marker_types)
  && bool_decide (tokenize.type t ≠ token.STRING).

(** The text of an assignment of a two-line string, and its tokens: row 2
    holds the end of the string and nothing else. *)
Definition assigned_string : string :=
  "x = " +:+ two_line_docstring.

Definition assigned_string_tokens : list tokenize.TokenInfo :=
  [TokenInfo token.NAME "x" (1, 0)%Z (1, 1)%Z
     ("x = " +:+ triple_double +:+ "a" +:+ newline);
   TokenInfo token.OP "=" (1, 2)%Z (1, 3)%Z
     ("x = " +:+ triple_double +:+ "a" +:+ newline);
   TokenInfo token.STRING
     (triple_double +:+ "a" +:+ newline +:+ "b" +:+ triple_double)
     (1, 4)%Z (2, 4)%Z assigned_string;
   TokenInfo token.NEWLINE newline (2, 4)%Z (2, 5)%Z
     ("b" +:+ triple_double +:+ newline);
   TokenInfo token.ENDMARKER EmptyString (3, 0)%Z (3, 0)%Z EmptyString].

(** Two blank lines and their tokens. *)
Definition blank_lines : string := newline +:+ newline.

Definition blank_lines_tokens : list tokenize.TokenInfo :=
  [TokenInfo token.NL newline (1, 0)%Z (1, 1)%Z newline;
   TokenInfo token.NL newline (2, 0)%Z (2, 1)%Z newline;
   TokenInfo token.ENDMARKER EmptyString (3, 0)%Z (3, 0)%Z EmptyString].

(** A second directory: a file of two blank lines, a file with an
    assignment of a two-line string, and a file that is not UTF-8. *)
#[local] Instance more_files : PyLib := {|
  open_read path :=
    if String.eqb path "blank.py" then Returns blank_lines
    else if String.eqb path "assigned.py" then Returns assigned_string
    else if String.eqb path "latin1.py" then Raises UnicodeDecodeError
    else Raises FileNotFoundError;
  ast_parse source_code :=
    if String.eqb source_code blank_lines then Returns (ast.Module [])
    else if String.eqb source_code assigned_string
    then Returns (ast.Module [ast.Assign])
    else Raises MemoryError;
  generate_tokens source_code :=
    if String.eqb source_code blank_lines then Returns blank_lines_tokens
    else if String.eqb source_code assigned_string
    then Returns assigned_string_tokens
    else Raises MemoryError;
|}.

(** A root directory [.] holding the three files of [sample_files], a test
    file and a directory whose name ends in [.py]; the only pattern that
    compiles is [test]. *)
#[local] Instance sample_tree : FileSystem := {|
  path_exists path := String.eqb path ".";
  glob_py root_dir :=
    if String.eqb root_dir "."
    then ["notes.py"; "test_notes.py"; "pkg.py"; "broken.py"; "empty.py"]
    else [];
  is_file path := negb (String.eqb path "pkg.py");
  pattern_str _ := "re.compile('test')";
  re_compile p := if String.eqb p "test" then Some test_pattern else None;
|}.

(** A result that, if it is an exception, is an [AssertionError] and comes
    with [ok] being false. *)
Definition raises_on_stray_only {A} (ok : bool) (r : result A) : Prop :=
  match r with
  | Returns _ => True
  | Raises e => e = AssertionError ∧ ok = false
  end.

(** A comment token: the first loop marks its rows as inline comment. *)
Definition is_comment_token (t : tokenize.TokenInfo) : bool :=
  bool_decide (tokenize.type t ∈ [token.COMMENT; token.TYPE_COMMENT]).

(** What [main] logs for one file: the message of [analyze_file], if any,
    and the result line, if there is a result. *)
Definition file_messages `{PyLib} (exclude_name_patterns : list re.Pattern)
    (fn : string) : list string :=
  let outcome := analyze_file fn (Some exclude_name_patterns) in
  (logged outcome
   ++ match returned outcome with
      | Returns (Some result) => [result_message fn result]
      | _ => []
      end)%list.

(** The line [find_all_py_files] logs for a file: the exclusion by the
    first pattern that matches its name, or its inclusion. *)
Definition scan_line `{FileSystem} (exclude_file_patterns : list re.Pattern)
    (fn : string) : string :=
  match List.find (λ p, re.matches p fn) exclude_file_patterns with
  | Some p => "Exclude " +:+ fn +:+ " by pattern " +:+ pattern_str p
  | None => "Include " +:+ fn
  end.

(** Totals with the results of further files added. *)
Definition add_results (t : totals) (results : list (nat * nat * nat * nat))
  : totals :=
  {| num_file := num_file t + length results;
     total_num_line :=
       total_num_line t + sum_list (map (λ r, r.1.1.1) results);
     total_num_nonblank_line :=
       total_num_nonblank_line t + sum_list (map (λ r, r.1.1.2) results);
     total_num_statement :=
       total_num_statement t + sum_list (map (λ r, r.1.2) results);
     total_num_commented_line :=
       total_num_commented_line t + sum_list (map (λ r, r.2) results) |}.

(** The statement lists of a node that [tranverse_ast_stmt] walks, each
    given as the node with that list left open: the body of a module, of a
    [with] or [async with] block and of a handler; the body of a definition
    whose name no pattern matches; the body and the [else] part of a loop or
    a conditional; the four parts of a [try]. *)
Inductive entered_block (exclude_name_patterns : list re.Pattern)
  : (list ast.node → ast.node) → Prop :=
  | entered_container (block : list ast.node → ast.node) :
      block ∈ [ast.Module; ast.With; ast.AsyncWith; ast.ExceptHandler] →
      entered_block exclude_name_patterns block
  | entered_definition (def : string → list ast.node → ast.node)
        (name : string) :
      def ∈ [ast.FunctionDef; ast.AsyncFunctionDef; ast.ClassDef] →
      existsb (λ p, re.matches p name) exclude_name_patterns = false →
      entered_block exclude_name_patterns (def name)
  | entered_body (loop : list ast.node → list ast.node → ast.node)
        (orelse : list ast.node) :
      loop ∈ [ast.For; ast.AsyncFor; ast.While; ast.If] →
      entered_block exclude_name_patterns (λ body, loop body orelse)
  | entered_orelse (loop : list ast.node → list ast.node → ast.node)
        (body : list ast.node) :
      loop ∈ [ast.For; ast.AsyncFor; ast.While; ast.If] →
      entered_block exclude_name_patterns (λ orelse, loop body orelse)
  | entered_try_body (handlers orelse finalbody : list ast.node) :
      entered_block exclude_name_patterns
        (λ body, ast.Try body handlers orelse finalbody)
  | entered_try_handlers (body orelse finalbody : list ast.node) :
      entered_block exclude_name_patterns
        (λ handlers, ast.Try body handlers orelse finalbody)
  | entered_try_orelse (body handlers finalbody : list ast.node) :
      entered_block exclude_name_patterns
        (λ orelse, ast.Try body handlers orelse finalbody)
  | entered_try_finalbody (body handlers orelse : list ast.node) :
      entered_block exclude_name_patterns
        (λ finalbody, ast.Try body handlers orelse finalbody).

(** A place for a list of statements in a tree, given as the tree with the
    list left open, that lies on the way of the walk from the root: an
    entered list of the root itself, or an entered list of a node that
    stands, between [before] and [after], in such a place. *)
Inductive visited_place (exclude_name_patterns : list re.Pattern)
  : (list ast.node → ast.node) → Prop :=
  | visited_root (block : list ast.node → ast.node) :
      entered_block exclude_name_patterns block →
      visited_place exclude_name_patterns block
  | visited_below (place block : list ast.node → ast.node)
        (before after : list ast.node) :
      visited_place exclude_name_patterns place →
      entered_block exclude_name_patterns block →
      visited_place exclude_name_patterns
        (λ stmts, place (before ++ block stmts :: after)%list).

(** Unfold the counter monad down to its results. *)
Ltac run_counter :=
  cbn; unfold mbind, M_bind, bind, add_count, mret, M_ret, ret; cbn.

Section traversal_facts.
Import ast.
Variable exclude_name_patterns : list re.Pattern.

Local Abbreviation callback := (_node_effective_count exclude_name_patterns).
Local Abbreviation visit := (tranverse_ast_stmt callback).
Local Abbreviation excluded name :=
  (existsb (λ p, re.matches p name) exclude_name_patterns).

(** Induction on the tree: a property holds of every node if it holds of a
    node whenever it holds of the nodes directly below it. *)
Lemma node_children_ind (P : node → Prop) :
  (∀ n, Forall P (children n) → P n) → ∀ n, P n.
Proof.
  intros step. fix IH 1. intros n. apply step.
  destruct n; cbn [children]; repeat apply Forall_app_2;
    try apply Forall_nil_2;
    match goal with
    | |- Forall P ?l => induction l; constructor; [apply IH|assumption]
    end.
Qed.

(** A loop over a concatenation is the loop over the first list and then,
    if that did not raise, the loop over the second. *)
Lemma for_each_app {A} (f : A → M unit) (l1 l2 : list A) (count : nat) :
  for_each f (l1 ++ l2) count =
  match for_each f l1 count with
  | Returns (_, count') => for_each f l2 count'
  | Raises e => Raises e
  end.
Proof.
  revert count. induction l1 as [|stmt l1 IH]; intros count; [done|].
  run_counter.
  destruct (f stmt count) as [[[] count']|e]; [apply IH|done].
Qed.

Lemma for_each_shift {A} (f : A → M unit) (l : list A) :
  Forall (λ x, ∀ count k, f x (count + k) = shift k (f x count)) l →
  ∀ count k, for_each f l (count + k) = shift k (for_each f l count).
Proof.
  induction 1 as [|x l Hx _ IH]; intros count k; [done|].
  run_counter. rewrite Hx.
  destruct (f x count) as [[[] count']|e]; [apply IH|done].
Qed.

(** What a walk adds to the counter does not depend on where the counter
    stands: started [k] higher, it ends [k] higher, or raises all the same. *)
Lemma visit_shift (n : node) (count k : nat) :
  visit n (count + k) = shift k (visit n count).
Proof.
  revert count k. induction n as [n IH] using node_children_ind.
  intros count k.
  destruct n; cbn [children] in IH;
    repeat (apply Forall_app in IH as [? IH]);
    run_counter; rewrite ?Nat.add_0_r;
    try replace (count + k + 1) with (count + 1 + k) by lia;
    repeat match goal with
    | |- context [if existsb ?f ?l then _ else _] =>
        destruct (existsb f l); cbn
    | |- context [if is_await_yield_call ?v then _ else _] =>
        destruct (is_await_yield_call v); cbn
    end;
    try done;
    repeat (rewrite for_each_shift by assumption;
            try match goal with
            | |- context [match for_each ?f ?l ?c with _ => _ end] =>
                destruct (for_each f l c) as [[[] ?]|?]; cbn
            end; try done).
  all: try (by apply for_each_shift).
  all: do 2 f_equal; lia.
Qed.

Lemma walk_shift (stmts : list node) (count k : nat) :
  for_each visit stmts (count + k) = shift k (for_each visit stmts count).
Proof.
  apply for_each_shift, Forall_forall. intros n _. apply visit_shift.
Qed.

(** What the callback does to the counter and what it answers. *)
Lemma callback_spec (n : node) (count : nat) :
  callback n count =
  Returns
    (match n with
     | FunctionDef name _ | AsyncFunctionDef name _ | ClassDef name _ =>
         negb (excluded name)
     | _ => true
     end,
     match n with
     | Module _ => count
     | Expr v => if is_await_yield_call v then count + 1 else count
     | _ => count + 1
     end).
Proof.
  destruct n as [| | | |name ?|name ?|name ?| | | | | | | | | | | | | |v
                 | | | | | | | | |];
    run_counter; rewrite ?Nat.add_0_r; try done.
  - by destruct (excluded name).
  - by destruct (excluded name).
  - by destruct (excluded name).
  - by destruct (is_await_yield_call v).
Qed.

(** The traversal at a node: the callback first, then the children the
    node's branch names, unless the callback answered [False]. *)
Lemma visit_container (n : node) (body : list node) (count : nat) :
  n ∈ [Module body; With body; AsyncWith body; ExceptHandler body] →
  visit n count =
  for_each visit body (match n with Module _ => count | _ => count + 1 end).
Proof.
  intros Hn. repeat (apply elem_of_cons in Hn as [->|Hn]);
    try (by apply elem_of_nil in Hn);
    run_counter; by rewrite ?Nat.add_0_r.
Qed.

Lemma visit_module (body : list node) (count : nat) :
  visit (Module body) count = for_each visit body count.
Proof. rewrite (visit_container _ body); [done|set_solver]. Qed.

Lemma visit_definition (n : node) (name : string) (body : list node)
    (count : nat) :
  n ∈ [FunctionDef name body; AsyncFunctionDef name body; ClassDef name body] →
  visit n count =
  if excluded name then Returns (tt, count + 1)
  else for_each visit body (count + 1).
Proof.
  intros Hn. repeat (apply elem_of_cons in Hn as [->|Hn]);
    try (by apply elem_of_nil in Hn);
    run_counter; by destruct (excluded name).
Qed.

(** C1 (as amended): the module root adds nothing to the counter; a [with]
    block, an [async with] block and an exception handler each add one, as do
    a function, an async function and a class definition and every simple
    statement; the body of each of these containers is then walked in order
    from the counter so reached. *)
Theorem container_contributions (name : string) (body : list node)
    (count : nat) :
  (callback (Module body) count = Returns (true, count)
   ∧ visit (Module body) count = for_each visit body count)
  ∧ Forall (λ block : list node → node,
      callback (block body) count = Returns (true, count + 1)
      ∧ visit (block body) count = for_each visit body (count + 1))
    [With; AsyncWith; ExceptHandler]
  ∧ Forall (λ def : string → list node → node,
      callback (def name body) count
      = Returns (negb (excluded name), count + 1))
    [FunctionDef; AsyncFunctionDef; ClassDef]
  ∧ Forall (λ simple : node,
      callback simple count = Returns (true, count + 1)
      ∧ visit simple count = Returns (tt, count + 1))
    [Return; Delete; Assign; AugAssign; Raise; Assert; Import; ImportFrom;
     Global; Nonlocal; Pass; Break; Continue].
Proof.
  split_and!.
  - by rewrite callback_spec.
  - rewrite (visit_container _ body); [done|set_solver].
  - repeat apply Forall_cons_2; [..|apply Forall_nil_2];
      (split; [by rewrite callback_spec
              |rewrite (visit_container _ body); [done|set_solver]]).
  - repeat apply Forall_cons_2; [..|apply Forall_nil_2];
      by rewrite callback_spec.
  - repeat apply Forall_cons_2; [..|apply Forall_nil_2];
      (split; [by rewrite callback_spec|done]).
Qed.

(** C2 (as amended): when the traversal visits a function, async function
    or class definition, the counter grows by one for the declaration; if
    the name matches a pattern the body is not walked at all, otherwise the
    body is walked from there.  So, for a definition among the statements of
    the module, the total is the total without the definition, plus one if
    the definition is excluded, and plus one and the count of its body if it
    is not. *)
Theorem exclusion_rule (name : string) (body : list node) (count : nat) :
  Forall (λ def : string → list node → node,
      visit (def name body) count
      = (if excluded name then Returns (tt, count + 1)
         else for_each visit body (count + 1))
      ∧ ∀ (before after : list node) (total : nat),
          visit (Module (before ++ after)) 0 = Returns (tt, total) →
          visit (Module (before ++ def name body :: after)) 0
          = if excluded name then Returns (tt, total + 1)
            else shift (total + 1) (for_each visit body 0))
    [FunctionDef; AsyncFunctionDef; ClassDef].
Proof.
  repeat apply Forall_cons_2; [..|apply Forall_nil_2].
  all: split; [apply visit_definition; set_solver|].
  all: intros before after total.
  all: rewrite !visit_module.
  all: rewrite !for_each_app.
  all: destruct (for_each visit before 0) as [[[] count1]|e]; [|done].
  all: intros Hafter.
  all: change (for_each visit (?n :: after) count1)
         with (bind (visit n) (λ _, for_each visit after) count1);
       unfold bind; rewrite (visit_definition _ name body) by set_solver.
  all: destruct (excluded name); [by rewrite walk_shift, Hafter|].
  all: change (count1 + 1) with (0 + (count1 + 1)); rewrite walk_shift.
  all: destruct (for_each visit body 0) as [[[] inner]|e]; [|done]; cbn.
  all: replace (inner + (count1 + 1)) with (count1 + (inner + 1)) by lia.
  all: rewrite walk_shift, Hafter; cbn; do 2 f_equal; lia.
Qed.

End traversal_facts.

(** ** Expression statements in a tree *)

Section expression_statements.
Import ast.
Context `{PyLib}.
Variable exclude_name_patterns : list re.Pattern.

Local Abbreviation callback := (_node_effective_count exclude_name_patterns).
Local Abbreviation visit := (tranverse_ast_stmt callback).
Local Abbreviation excluded name :=
  (existsb (λ p, re.matches p name) exclude_name_patterns).

(** A statement that adds [k] wherever the counter stands adds [k] to what
    the loop over the list around it gives. *)
Lemma for_each_insert (n : node) (k : nat) (before after : list node) :
  (∀ count, visit n count = Returns (tt, count + k)) →
  ∀ count,
    for_each visit (before ++ n :: after) count
    = shift k (for_each visit (before ++ after) count).
Proof.
  intros Hn count. rewrite !for_each_app.
  destruct (for_each visit before count) as [[[] count1]|e]; [|done].
  change (for_each visit (n :: after) count1)
    with (bind (visit n) (λ _, for_each visit after) count1).
  unfold bind. rewrite Hn. apply walk_shift.
Qed.

(** A node that gives [k] more than another gives, in its place, [k] more
    at the end of the loop. *)
Lemma for_each_replace (n n' : node) (k : nat) (before after : list node) :
  (∀ count, visit n' count = shift k (visit n count)) →
  ∀ count,
    for_each visit (before ++ n' :: after) count
    = shift k (for_each visit (before ++ n :: after) count).
Proof.
  intros Hn count. rewrite !for_each_app.
  destruct (for_each visit before count) as [[[] count1]|e]; [|done].
  change (for_each visit (?m :: after) count1)
    with (bind (visit m) (λ _, for_each visit after) count1).
  unfold bind. rewrite Hn.
  destruct (visit n count1) as [[[] count2]|e]; [|done].
  apply walk_shift.
Qed.

(** The walk enters an entered list: what the list gives more, the node
    gives more. *)
Lemma entered_block_shift (block : list node → node)
    (stmts stmts' : list node) (k : nat) :
  entered_block exclude_name_patterns block →
  (∀ count, for_each visit stmts' count = shift k (for_each visit stmts count)) →
  ∀ count, visit (block stmts') count = shift k (visit (block stmts) count).
Proof.
  intros Hblock Hstmts count.
  destruct Hblock as [block Hin|def name Hin Hname|loop orelse Hin
                     |loop body Hin| | | |].
  - repeat (apply elem_of_cons in Hin as [->|Hin]);
      try (by apply elem_of_nil in Hin).
    all: rewrite (visit_container _ _ stmts'), (visit_container _ _ stmts)
           by set_solver.
    all: apply Hstmts.
  - repeat (apply elem_of_cons in Hin as [->|Hin]);
      try (by apply elem_of_nil in Hin).
    all: rewrite (visit_definition _ _ name stmts'),
           (visit_definition _ _ name stmts) by set_solver.
    all: rewrite Hname; apply Hstmts.
  - repeat (apply elem_of_cons in Hin as [->|Hin]);
      try (by apply elem_of_nil in Hin).
    all: run_counter; rewrite Hstmts.
    all: destruct (for_each _ stmts (count + 1)) as [[[] count1]|e]; [|done].
    all: apply walk_shift.
  - repeat (apply elem_of_cons in Hin as [->|Hin]);
      try (by apply elem_of_nil in Hin).
    all: run_counter.
    all: destruct (for_each _ body (count + 1)) as [[[] count1]|e]; [|done].
    all: apply Hstmts.
  - run_counter. rewrite Hstmts.
    destruct (for_each _ stmts (count + 1)) as [[[] count1]|e]; [|done]. cbn.
    rewrite walk_shift.
    destruct (for_each _ handlers count1) as [[[] count2]|e]; [|done]. cbn.
    rewrite walk_shift.
    destruct (for_each _ orelse count2) as [[[] count3]|e]; [|done].
    apply walk_shift.
  - run_counter.
    destruct (for_each _ body (count + 1)) as [[[] count1]|e]; [|done].
    rewrite Hstmts.
    destruct (for_each _ stmts count1) as [[[] count2]|e]; [|done]. cbn.
    rewrite walk_shift.
    destruct (for_each _ orelse count2) as [[[] count3]|e]; [|done].
    apply walk_shift.
  - run_counter.
    destruct (for_each _ body (count + 1)) as [[[] count1]|e]; [|done].
    destruct (for_each _ handlers count1) as [[[] count2]|e]; [|done].
    rewrite Hstmts.
    destruct (for_each _ stmts count2) as [[[] count3]|e]; [|done].
    apply walk_shift.
  - run_counter.
    destruct (for_each _ body (count + 1)) as [[[] count1]|e]; [|done].
    destruct (for_each _ handlers count1) as [[[] count2]|e]; [|done].
    destruct (for_each _ orelse count2) as [[[] count3]|e]; [|done].
    apply Hstmts.
Qed.

(** The same down any number of levels. *)
Lemma visited_place_shift (place : list node → node)
    (stmts stmts' : list node) (k : nat) :
  visited_place exclude_name_patterns place →
  (∀ count, for_each visit stmts' count = shift k (for_each visit stmts count)) →
  ∀ count, visit (place stmts') count = shift k (visit (place stmts) count).
Proof.
  intros Hplace. revert stmts stmts'.
  induction Hplace as [block Hblock|place block before after _ IH Hblock];
    intros stmts stmts' Hstmts.
  - by apply entered_block_shift.
  - apply IH. apply for_each_replace. by apply entered_block_shift.
Qed.

(** C3 (as amended): a bare expression statement ends the walk at that point
    and adds one to the counter exactly when its value is a call, an await,
    a yield or a yield-from expression; otherwise, for a constant or a name
    among others, it adds nothing.  In a place that the walk reaches, however
    deep, that is what the statement adds to the count of the whole tree and
    to what [count_statements] returns for a text parsed to it.  In the body
    of an excluded definition, or below a [match] or a [try] with [except*],
    which the walk does not enter, no statement adds anything. *)
Theorem expression_statement_contribution (v : expr)
    (place : list node → node) (before after : list node) (count : nat) :
  visited_place exclude_name_patterns place →
  callback (Expr v) count
  = Returns (true, if is_await_yield_call v then count + 1 else count)
  ∧ visit (Expr v) count
    = Returns (tt, if is_await_yield_call v then count + 1 else count)
  ∧ (visit (Expr v) count = Returns (tt, count + 1)
     ↔ v ∈ [Call; Await; Yield; YieldFrom])
  ∧ (v ∈ [Constant; Name; JoinedStr] → visit (Expr v) count = Returns (tt, count))
  ∧ visit (place (before ++ Expr v :: after)%list) count
    = shift (if is_await_yield_call v then 1 else 0)
        (visit (place (before ++ after)%list) count)
  ∧ (∀ source_code without_it total,
        ast_parse source_code = Returns (place (before ++ Expr v :: after)%list) →
        ast_parse without_it = Returns (place (before ++ after)%list) →
        count_statements without_it (Some exclude_name_patterns)
        = Returns total →
        count_statements source_code (Some exclude_name_patterns)
        = Returns (total + if is_await_yield_call v then 1 else 0))
  ∧ Forall (λ def : string → list node → node,
      ∀ name body body',
        excluded name = true →
        visit (def name body) count = visit (def name body') count)
    [FunctionDef; AsyncFunctionDef; ClassDef]
  ∧ (∀ cases cases', visit (Match cases) count = visit (Match cases') count)
  ∧ (∀ body handlers orelse finalbody body' handlers' orelse' finalbody',
        visit (TryStar body handlers orelse finalbody) count
        = visit (TryStar body' handlers' orelse' finalbody') count).
Proof.
  intros Hplace.
  assert (Hvisit : ∀ count, visit (Expr v) count
    = Returns (tt, if is_await_yield_call v then count + 1 else count)).
  { intros count'. run_counter. by destruct (is_await_yield_call v). }
  assert (Hadds : ∀ count, visit (Expr v) count
    = Returns (tt, count + if is_await_yield_call v then 1 else 0)).
  { intros count'. rewrite Hvisit.
    destruct (is_await_yield_call v); by rewrite ?Nat.add_0_r. }
  assert (Htree : ∀ count,
    visit (place (before ++ Expr v :: after)%list) count
    = shift (if is_await_yield_call v then 1 else 0)
        (visit (place (before ++ after)%list) count)).
  { apply visited_place_shift; [done|]. by apply for_each_insert. }
  split_and!; [by rewrite callback_spec|done| | |done| | | |].
  - rewrite Hvisit. split.
    + intros Heq. destruct v; cbn in Heq; try set_solver;
        exfalso; injection Heq; lia.
    + intros Hv. repeat (apply elem_of_cons in Hv as [->|Hv]); try done.
      by apply elem_of_nil in Hv.
  - intros Hv. rewrite Hvisit.
    repeat (apply elem_of_cons in Hv as [->|Hv]); try done.
    by apply elem_of_nil in Hv.
  - intros source_code without_it total Hwith Hwithout.
    unfold count_statements. rewrite Hwith, Hwithout. cbn.
    rewrite Htree.
    destruct (tranverse_ast_stmt _ (place (before ++ after)%list) 0)
      as [[[] total']|e]; [|done].
    cbn. by intros [= ->].
  - repeat apply Forall_cons_2; [..|apply Forall_nil_2].
    all: intros name body body' Hname.
    all: rewrite (visit_definition _ _ name body),
           (visit_definition _ _ name body') by set_solver.
    all: by rewrite Hname.
  - done.
  - done.
Qed.

End expression_statements.

(** C3 at the body of a function that no pattern excludes: the text with
    the call counts three, one more than the text without it, and the text
    with a docstring in its place counts two, as the text without it. *)
Lemma expression_statement_contribution_on_sample :
  visited_place [test_pattern]
    (λ stmts, ast.Module [ast.FunctionDef "run" stmts])
  ∧ @count_statements call_statements run_without_call (Some [test_pattern])
    = Returns 2
  ∧ @count_statements call_statements run_with_call (Some [test_pattern])
    = Returns (2 + 1)
  ∧ @count_statements call_statements run_with_docstring
      (Some [test_pattern])
    = Returns (2 + 0).
Proof.
  assert (Hplace : visited_place [test_pattern]
            (λ stmts, ast.Module [ast.FunctionDef "run" stmts])).
  { apply (visited_below [test_pattern] ast.Module (ast.FunctionDef "run")
             [] []).
    - apply visited_root, entered_container. left.
    - apply entered_definition; [left|reflexivity]. }
  split_and!; [exact Hplace|reflexivity| |].
  - exact (proj1 (proj2 (proj2 (proj2 (proj2 (proj2
             (@expression_statement_contribution call_statements
                [test_pattern] ast.Call _ [] [ast.Return] 0 Hplace))))))
             run_with_call run_without_call 2 eq_refl eq_refl eq_refl).
  - exact (proj1 (proj2 (proj2 (proj2 (proj2 (proj2
             (@expression_statement_contribution call_statements
                [test_pattern] ast.Constant _ [] [ast.Return] 0 Hplace))))))
             run_with_docstring run_without_call 2 eq_refl eq_refl eq_refl).
Defined.

(** C3 (as stated) fails: a call statement adds nothing where the walk does
    not come.  In the body of [test_a], which the pattern excludes, and in a
    [case] of a [match], which the walk does not enter, the text with the
    call [f()] counts one statement, as the text without it does. *)
Lemma unvisited_call_statement_adds_nothing :
  is_await_yield_call ast.Call = true
  ∧ re.matches test_pattern "test_a" = true
  ∧ @ast_parse call_statements test_with_call
    = Returns (ast.Module
                 [ast.FunctionDef "test_a" [ast.Expr ast.Call; ast.Pass]])
  ∧ @count_statements call_statements test_with_call (Some [test_pattern])
    = Returns 1
  ∧ @count_statements call_statements test_without_call (Some [test_pattern])
    = Returns 1
  ∧ @ast_parse call_statements match_with_call
    = Returns (ast.Module
                 [ast.Match [ast.match_case [ast.Expr ast.Call; ast.Pass]]])
  ∧ @count_statements call_statements match_with_call None = Returns 1
  ∧ @count_statements call_statements match_without_call None = Returns 1.
Proof. by split_and!. Qed.

(** C1 (as stated) fails: a [with] block and an exception handler each add
    one to the counter, not nothing.  [with x: pass] counts two statements
    and a [try] with one handler and two [pass] counts four; were the blocks
    free, the totals would be one and three. *)
Lemma with_and_handler_blocks_count_one :
  _node_effective_count [] (ast.With [ast.Pass]) 0 = Returns (true, 1)
  ∧ _node_effective_count [] (ast.AsyncWith [ast.Pass]) 0 = Returns (true, 1)
  ∧ _node_effective_count [] (ast.ExceptHandler [ast.Pass]) 0
    = Returns (true, 1)
  ∧ tranverse_ast_stmt (_node_effective_count [])
      (ast.Module [ast.With [ast.Pass]]) 0
    = Returns (tt, 2)
  ∧ tranverse_ast_stmt (_node_effective_count [])
      (ast.Module [ast.Try [ast.Pass] [ast.ExceptHandler [ast.Pass]] [] []]) 0
    = Returns (tt, 4).
Proof. by split_and!. Qed.

(** C2 (as stated) fails: [test_b] is a definition of the text and its name
    matches the pattern, yet its declaration is not counted, because it lies
    in the body of [test_a], which is excluded too.  The total is the one
    declaration of [test_a], the same as without the inner definition. *)
Lemma nested_matching_definition_not_counted :
  re.matches test_pattern "test_a" = true
  ∧ re.matches test_pattern "test_b" = true
  ∧ tranverse_ast_stmt (_node_effective_count [test_pattern]) nested_tests 0
    = Returns (tt, 1)
  ∧ tranverse_ast_stmt (_node_effective_count [test_pattern]) outer_test_only 0
    = Returns (tt, 1).
Proof. by split_and!. Qed.

(** C8 (as stated) fails: an annotated assignment, a [match] statement and a
    [try]/[except*] statement are statements of kinds the traversal has no
    branch for, and the walk over them raises nothing: each counts as one
    and is not entered. *)
Lemma newer_statements_raise_nothing :
  Forall (λ n, ast.is_stmt n = true) [ast.AnnAssign;
    ast.Match [ast.match_case [ast.Pass]];
    ast.TryStar [ast.Pass] [ast.ExceptHandler [ast.Pass]] [] []]
  ∧ tranverse_ast_stmt (_node_effective_count []) newer_statements 0
    = Returns (tt, 3).
Proof. split; [by repeat constructor|done]. Qed.

(** ** The two loops of [count_lines] *)

Section line_facts.

Lemma without_chars_twice (cs1 cs2 : list ascii) (s : string) :
  without_chars cs2 (without_chars cs1 s) = without_chars (cs1 ++ cs2) s.
Proof.
  induction s as [|a s IH]; [done|]. cbn.
  destruct (decide (a ∈ cs1)) as [H1|H1].
  - rewrite (bool_decide_eq_true_2 _ H1).
    rewrite bool_decide_eq_true_2 by (apply elem_of_app; by left). done.
  - rewrite (bool_decide_eq_false_2 _ H1). cbn.
    destruct (decide (a ∈ cs2)) as [H2|H2].
    + rewrite (bool_decide_eq_true_2 _ H2).
      rewrite bool_decide_eq_true_2 by (apply elem_of_app; by right). done.
    + rewrite (bool_decide_eq_false_2 _ H2).
      rewrite bool_decide_eq_false_2 by (rewrite elem_of_app; tauto).
      by rewrite IH.
Qed.

Lemma remove_char_without (c : ascii) (s : string) :
  remove_char c s = without_chars [c] s.
Proof.
  induction s as [|a s IH]; [done|]. cbn. rewrite IH.
  destruct (decide (a = c)) as [->|Hne].
  - rewrite bool_decide_eq_true_2 by done.
    by rewrite bool_decide_eq_true_2 by set_solver.
  - rewrite bool_decide_eq_false_2 by done.
    by rewrite bool_decide_eq_false_2 by set_solver.
Qed.

(** The four [replace] calls remove exactly the line feeds, spaces, tabs and
    carriage returns. *)
Lemma stripped_line (t_line : string) :
  remove_char CR (remove_char TAB (remove_char SPACE (remove_char LF t_line)))
  = without_chars [LF; SPACE; TAB; CR] t_line.
Proof. by rewrite !remove_char_without, !without_chars_twice. Qed.

(** The inner loop adds to both sets the rows that were not yet nonblank. *)
Lemma add_block_lines (rows : list Z) (nonblank block : gset Z) :
  foldl add_block_line (nonblank, block) rows
  = (nonblank ∪ list_to_set rows, block ∪ (list_to_set rows ∖ nonblank)).
Proof.
  revert nonblank block.
  induction rows as [|lineno rows IH]; intros nonblank block; cbn.
  - f_equal; set_solver.
  - case_bool_decide as Hin; rewrite IH; clear IH; f_equal;
      apply set_eq; intros x; destruct (decide (x = lineno)) as [->|Hne];
      set_solver.
Qed.

Lemma second_pass_step_spec (t : tokenize.TokenInfo) (nonblank block : gset Z) :
  second_pass_step (nonblank, block) t
  = if is_block_comment_token t
    then (nonblank ∪ list_to_set (spanned_lines t),
          block ∪ (list_to_set (spanned_lines t) ∖ nonblank))
    else (nonblank, block).
Proof.
  unfold second_pass_step, is_block_comment_token.
  case_bool_decide; cbn; [|done].
  destruct (is_block_comment_line _); [apply add_block_lines|done].
Qed.

Lemma second_pass_from (tokens : list tokenize.TokenInfo)
    (nonblank block : gset Z) :
  foldl second_pass_step (nonblank, block) tokens
  = (nonblank ∪ block_comment_span tokens,
     block ∪ (block_comment_span tokens ∖ nonblank)).
Proof.
  revert nonblank block.
  induction tokens as [|t tokens IH]; intros nonblank block; cbn.
  - f_equal; set_solver.
  - rewrite second_pass_step_spec.
    destruct (is_block_comment_token t); rewrite IH; clear IH; f_equal;
      apply set_eq; intros x;
      destruct (decide (x ∈ (list_to_set (spanned_lines t) : gset Z)));
      set_solver.
Qed.

(** C4 (as amended): the test of the second loop looks at the token's [line]
    with its line feeds, spaces, tabs and carriage returns removed, and holds
    when what is left starts and ends with the same triple quote.  A string
    token that passes adds every row it spans that is not nonblank yet to
    both the nonblank and the block-comment set; any other token adds
    nothing.  Over the whole loop, started on the nonblank set of the first
    loop, the rows added are those of the passing tokens that the first loop
    had not marked. *)
Theorem second_pass_spec (tokens : list tokenize.TokenInfo)
    (t : tokenize.TokenInfo) (nonblank block : gset Z) :
  is_block_comment_line (tokenize.line t)
  = (let line := without_chars [LF; SPACE; TAB; CR] (tokenize.line t) in
     (startswith line triple_single && endswith line triple_single)
     || (startswith line triple_double && endswith line triple_double))
  ∧ second_pass_step (nonblank, block) t
    = (if bool_decide (tokenize.type t = token.STRING)
          && is_block_comment_line (tokenize.line t)
       then (nonblank ∪ list_to_set (spanned_lines t),
             block ∪ (list_to_set (spanned_lines t) ∖ nonblank))
       else (nonblank, block))
  ∧ foldl second_pass_step (nonblank, ∅) tokens
    = (nonblank ∪ block_comment_span tokens,
       block_comment_span tokens ∖ nonblank).
Proof.
  split_and!.
  - unfold is_block_comment_line. by rewrite stripped_line.
  - apply second_pass_step_spec.
  - rewrite second_pass_from. f_equal. set_solver.
Qed.

(** C4 (as stated) fails, on two counts.  With all whitespace stripped the
    line of the first docstring starts and ends with three single quotes,
    but the program keeps the form feed, finds the line ending in it, and
    marks no row.  The starting line of the second docstring does not end
    with three quotes, but the program tests the token's [line], which holds
    both of its physical lines, and marks rows 1 and 2 as block comment. *)
Lemma docstrings_classified_otherwise :
  (spec_is_block_comment form_feed_line form_feed_string = true
   ∧ is_block_comment_line (tokenize.line form_feed_string) = false
   ∧ line_sets form_feed_tokens = (∅, ∅, ∅))
  ∧ (spec_is_block_comment two_line_docstring two_line_string = false
     ∧ is_block_comment_line (tokenize.line two_line_string) = true
     ∧ line_sets two_line_tokens = ({[1; 2]}, ∅, {[1; 2]})%Z).
Proof. by split_and!. Qed.

End line_facts.

(** ** The counts of [count_lines] *)

Section count_lines_facts.
Context `{PyLib}.

(** The first loop only adds rows, and every inline-comment row it adds is
    added to the nonblank rows too. *)
Lemma first_pass_subset (tokens : list tokenize.TokenInfo)
    (nonblank inline : gset Z) :
  inline ⊆ nonblank →
  (foldl first_pass_step (nonblank, inline) tokens).2
  ⊆ (foldl first_pass_step (nonblank, inline) tokens).1.
Proof.
  revert nonblank inline.
  induction tokens as [|t tokens IH]; intros nonblank inline Hsub; [done|].
  cbn. repeat case_bool_decide; apply IH; unfold update; set_solver.
Qed.

(** Rows of tokens that stay inside a set [rows] leave the nonblank rows of
    the first loop inside it. *)
Lemma first_pass_bound (rows : gset Z) (tokens : list tokenize.TokenInfo)
    (nonblank inline : gset Z) :
  nonblank ⊆ rows →
  Forall (λ t, tokenize.type t ∉ marker_types →
             list_to_set (spanned_lines t) ⊆ rows) tokens →
  (foldl first_pass_step (nonblank, inline) tokens).1 ⊆ rows.
Proof.
  revert nonblank inline.
  induction tokens as [|t tokens IH]; intros nonblank inline Hsub Hall; [done|].
  apply Forall_cons in Hall as [Ht Hall]. cbn.
  repeat case_bool_decide; apply IH; try done; unfold update;
    apply union_subseteq; split; try done; by apply Ht.
Qed.

Lemma block_comment_span_bound (rows : gset Z)
    (tokens : list tokenize.TokenInfo) :
  Forall (λ t, tokenize.type t ∉ marker_types →
             list_to_set (spanned_lines t) ⊆ rows) tokens →
  block_comment_span tokens ⊆ rows.
Proof.
  induction 1 as [|t tokens Ht _ IH]; cbn; [set_solver|].
  apply union_subseteq; split; [|done].
  unfold is_block_comment_token. case_bool_decide as Hty; cbn; [|set_solver].
  destruct (is_block_comment_line _); [|set_solver].
  apply Ht. rewrite Hty. unfold marker_types. set_solver.
Qed.

Lemma rows_within_spans (num_lines : nat) (tokens : list tokenize.TokenInfo) :
  rows_within num_lines tokens →
  Forall (λ t, tokenize.type t ∉ marker_types →
             list_to_set (spanned_lines t)
             ⊆ (list_to_set (seqZ 1 (Z.of_nat num_lines)) : gset Z)) tokens.
Proof.
  unfold rows_within. intros Hrows.
  eapply Forall_impl; [exact Hrows|]. cbn. intros t Ht Hty x.
  destruct (Ht Hty) as [Hlo Hhi].
  rewrite !elem_of_list_to_set. unfold spanned_lines.
  rewrite !elem_of_seqZ. lia.
Qed.

(** The three sets in terms of the first loop and the block-comment rows. *)
Lemma line_sets_spec (tokens : list tokenize.TokenInfo) :
  line_sets tokens
  = (let first := foldl first_pass_step (∅, ∅) tokens in
     (first.1 ∪ block_comment_span tokens, first.2,
      block_comment_span tokens ∖ first.1)).
Proof.
  unfold line_sets.
  destruct (foldl first_pass_step (∅, ∅) tokens) as [nonblank inline].
  rewrite second_pass_from. cbn. by rewrite (left_id_L ∅ (∪)).
Qed.

Lemma commented_within_nonblank (tokens : list tokenize.TokenInfo) :
  (line_sets tokens).1.2 ∪ (line_sets tokens).2 ⊆ (line_sets tokens).1.1.
Proof.
  rewrite line_sets_spec. cbn.
  pose proof (first_pass_subset tokens ∅ ∅) as Hsub. set_solver.
Qed.

Lemma nonblank_within_rows (num_lines : nat)
    (tokens : list tokenize.TokenInfo) :
  rows_within num_lines tokens →
  (size (line_sets tokens).1.1 ≤ num_lines)%nat.
Proof.
  intros Hrows%rows_within_spans.
  transitivity (size (list_to_set (seqZ 1 (Z.of_nat num_lines)) : gset Z)).
  - apply subseteq_size. rewrite line_sets_spec. cbn.
    apply union_subseteq. split.
    + by apply first_pass_bound.
    + by apply block_comment_span_bound.
  - rewrite size_list_to_set by apply NoDup_seqZ.
    rewrite length_seqZ. lia.
Qed.

(** C5: when [count_lines] returns, the number of commented lines, which is
    the size of the union of the inline-comment and the block-comment rows,
    is at most the number of nonblank lines, and that is at most the number
    of lines as long as the tokenizer places every token that is not a
    marker on a row of the text. *)
Theorem count_lines_ordered (source_code : string)
    (total nonblank commented : nat) :
  count_lines source_code = Returns (total, nonblank, commented) →
  ((∀ tokens, generate_tokens source_code = Returns tokens →
      rows_within (length (readlines source_code)) tokens) →
   total ≥ nonblank)
  ∧ nonblank ≥ commented
  ∧ commented ≥ 0
  ∧ ∃ tokens,
      generate_tokens source_code = Returns tokens
      ∧ total = length (readlines source_code)
      ∧ nonblank = size (line_sets tokens).1.1
      ∧ commented = size ((line_sets tokens).1.2 ∪ (line_sets tokens).2).
Proof.
  unfold count_lines.
  destruct (generate_tokens source_code) as [tokens|e] eqn:Htokens; [|done].
  destruct (line_sets tokens) as [[nonblank_lines inline] block] eqn:Hsets.
  intros [= <- <- <-].
  pose proof (commented_within_nonblank tokens) as Hsub.
  rewrite Hsets in Hsub. cbn in Hsub.
  split_and!.
  - intros Hrows. specialize (Hrows tokens eq_refl).
    apply nonblank_within_rows in Hrows. rewrite Hsets in Hrows. exact Hrows.
  - by apply subseteq_size.
  - lia.
  - exists tokens. by rewrite Hsets.
Qed.

(** C6: on the text of a comment line, a blank line and a block of three
    lines in triple double quotes, tokenized as CPython does, [count_lines]
    returns 5 lines, 4 nonblank lines (rows 1, 3, 4 and 5) and 4 commented
    lines (row 1 inline, rows 3 to 5 as a block comment). *)
Theorem comment_and_block_counts :
  generate_tokens comment_and_block = Returns comment_and_block_tokens →
  count_lines comment_and_block = Returns (5, 4, 4)
  ∧ length (readlines comment_and_block) = 5
  ∧ line_sets comment_and_block_tokens
    = ({[1; 3; 4; 5]}, {[1]}, {[3; 4; 5]})%Z.
Proof.
  intros Htokens. unfold count_lines. rewrite Htokens. by split_and!.
Qed.

End count_lines_facts.

(** ** [analyze_file] and its [except] clauses *)

Section analyze_file_facts.
Context `{PyLib}.

(** A syntax or token error is not an [OSError], so the first [except]
    clause lets it through to the second. *)
Lemma syntax_error_not_os_error (e : exception) :
  isinstance_exc e SyntaxError || isinstance_exc e TokenError = true →
  isinstance_exc e FileNotFoundError || isinstance_exc e OSError = false.
Proof. by destruct e. Qed.

(** What [analyze_file] makes of an exception raised inside its [try]. *)
Lemma analyze_file_raised (path : string)
    (exclude_name_patterns : option (list re.Pattern)) (e : exception) :
  analyze_file_try path exclude_name_patterns = Raises e →
  analyze_file path exclude_name_patterns
  = if isinstance_exc e FileNotFoundError || isinstance_exc e OSError
    then {| returned := Returns None;
            logged := ["Failed to open: " +:+ path] |}
    else if isinstance_exc e SyntaxError || isinstance_exc e TokenError
    then {| returned := Returns None;
            logged := ["File has syntax error: " +:+ path] |}
    else {| returned := Raises e; logged := [] |}.
Proof. unfold analyze_file. by intros ->. Qed.

(** Markers mark no row in either loop. *)
Lemma markers_leave_sets_empty (tokens : list tokenize.TokenInfo) :
  Forall (λ t, tokenize.type t ∈ marker_types) tokens →
  line_sets tokens = (∅, ∅, ∅).
Proof.
  intros Hall. rewrite line_sets_spec.
  assert (Hfirst : foldl first_pass_step (∅, ∅) tokens = (∅, ∅)).
  { induction Hall as [|t tokens Ht _ IH]; [done|]. cbn.
    by rewrite bool_decide_eq_true_2. }
  assert (Hspan : block_comment_span tokens = ∅).
  { clear Hfirst.
    induction Hall as [|t tokens Ht _ IH]; [done|]. cbn. rewrite IH.
    unfold is_block_comment_token. rewrite bool_decide_eq_false_2.
    - cbn. by rewrite (left_id_L ∅ (∪)).
    - intros Hty. rewrite Hty in Ht. unfold marker_types in Ht.
      set_solver. }
  rewrite Hfirst, Hspan. cbn.
  rewrite (left_id_L ∅ (∪)). by do 2 f_equal.
Qed.

(** C7 (as amended): [analyze_file] returns [None], raises nothing and logs
    one message when opening or reading the file raises an [OSError] (of any
    subclass), when parsing raises a [SyntaxError] (of any subclass) and
    when tokenizing raises a [TokenError] or a [SyntaxError]; when both
    analyzers return, it returns the four counts and logs nothing.  A tuple
    it returns always holds the results of both analyzers. *)
Theorem analyze_file_outcomes (path : string)
    (exclude_name_patterns : option (list re.Pattern)) :
  let absent message :=
    {| returned := Returns None; logged := [message +:+ path] |} in
  (∀ e, open_read path = Raises e →
        isinstance_exc e OSError = true →
        analyze_file path exclude_name_patterns = absent "Failed to open: ")
  ∧ (∀ source_code e,
        open_read path = Returns source_code →
        ast_parse source_code = Raises e →
        isinstance_exc e SyntaxError = true →
        analyze_file path exclude_name_patterns
        = absent "File has syntax error: ")
  ∧ (∀ source_code num_statement e,
        open_read path = Returns source_code →
        count_statements source_code exclude_name_patterns
        = Returns num_statement →
        generate_tokens source_code = Raises e →
        isinstance_exc e SyntaxError || isinstance_exc e TokenError = true →
        analyze_file path exclude_name_patterns
        = absent "File has syntax error: ")
  ∧ (∀ source_code num_statement num_line num_nonblank_line
       num_commented_line,
        open_read path = Returns source_code →
        count_statements source_code exclude_name_patterns
        = Returns num_statement →
        count_lines source_code
        = Returns (num_line, num_nonblank_line, num_commented_line) →
        analyze_file path exclude_name_patterns
        = {| returned := Returns (Some (num_line, num_nonblank_line,
                                        num_statement, num_commented_line));
             logged := [] |})
  ∧ (∀ r, returned (analyze_file path exclude_name_patterns)
          = Returns (Some r) →
        ∃ source_code num_statement num_line num_nonblank_line
          num_commented_line,
          open_read path = Returns source_code
          ∧ count_statements source_code exclude_name_patterns
            = Returns num_statement
          ∧ count_lines source_code
            = Returns (num_line, num_nonblank_line, num_commented_line)
          ∧ r = (num_line, num_nonblank_line, num_statement,
                 num_commented_line)).
Proof.
  cbn zeta. split_and!.
  - intros e Hopen He.
    rewrite (analyze_file_raised _ _ e).
    + by rewrite He, orb_true_r.
    + unfold analyze_file_try. by rewrite Hopen.
  - intros source_code e Hopen Hparse He.
    rewrite (analyze_file_raised _ _ e).
    + rewrite syntax_error_not_os_error by (by rewrite He).
      by rewrite He.
    + unfold analyze_file_try, count_statements.
      by rewrite Hopen, Hparse.
  - intros source_code num_statement e Hopen Hcount Htokens He.
    rewrite (analyze_file_raised _ _ e).
    + rewrite syntax_error_not_os_error by done. by rewrite He.
    + unfold analyze_file_try, count_lines.
      by rewrite Hopen, Hcount, Htokens.
  - intros source_code num_statement num_line num_nonblank_line
      num_commented_line Hopen Hcount Hlines.
    unfold analyze_file, analyze_file_try.
    by rewrite Hopen, Hcount, Hlines.
  - intros r. unfold analyze_file, analyze_file_try.
    destruct (open_read path) as [source_code|e] eqn:Hopen.
    + destruct (count_statements source_code exclude_name_patterns)
        as [num_statement|e] eqn:Hcount.
      * destruct (count_lines source_code) as [[[a b] c]|e] eqn:Hlines.
        -- cbn. intros [= <-]. by exists source_code, num_statement, a, b, c.
        -- repeat case_match; by cbn.
      * repeat case_match; by cbn.
    + repeat case_match; by cbn.
Qed.

(** C8 (as amended): a statement of a kind the traversal has no branch for
    (an annotated assignment, a [match], a [try] with [except*]) passes the
    assertion: it counts as one statement, is not entered, and nothing is
    raised.  The assertion fails on a node that is no statement, such as a
    [match_case]; the [AssertionError] of [count_statements] is caught by
    neither [except] clause of [analyze_file] and leaves it. *)
Theorem unrecognized_statement_kinds (path : string)
    (exclude_name_patterns : option (list re.Pattern))
    (patterns : list re.Pattern)
    (cases body handlers orelse finalbody : list ast.node) (count : nat) :
  Forall (λ n,
      ast.is_stmt n = true
      ∧ tranverse_ast_stmt (_node_effective_count patterns) n count
        = Returns (tt, count + 1))
    [ast.AnnAssign; ast.Match cases;
     ast.TryStar body handlers orelse finalbody]
  ∧ ast.is_stmt (ast.match_case body) = false
  ∧ tranverse_ast_stmt (_node_effective_count patterns)
      (ast.match_case body) count
    = Raises AssertionError
  ∧ (∀ source_code,
        open_read path = Returns source_code →
        count_statements source_code exclude_name_patterns
        = Raises AssertionError →
        analyze_file path exclude_name_patterns
        = {| returned := Raises AssertionError; logged := [] |}).
Proof.
  split_and!; [by repeat constructor|done|done|].
  intros source_code Hopen Hcount.
  rewrite (analyze_file_raised _ _ AssertionError); [done|].
  unfold analyze_file_try. by rewrite Hopen, Hcount.
Qed.

(** C10: on the empty text, parsed to a module with no statement and
    tokenized to markers only, [count_lines] returns (0, 0, 0),
    [count_statements] returns 0, and [analyze_file] on a readable file
    with that text returns (0, 0, 0, 0) and logs nothing. *)
Theorem empty_source (path : string)
    (exclude_name_patterns : option (list re.Pattern))
    (tokens : list tokenize.TokenInfo) :
  ast_parse EmptyString = Returns (ast.Module []) →
  generate_tokens EmptyString = Returns tokens →
  Forall (λ t, tokenize.type t ∈ marker_types) tokens →
  count_lines EmptyString = Returns (0, 0, 0)
  ∧ count_statements EmptyString exclude_name_patterns = Returns 0
  ∧ (open_read path = Returns EmptyString →
     analyze_file path exclude_name_patterns
     = {| returned := Returns (Some (0, 0, 0, 0)); logged := [] |}).
Proof.
  intros Hparse Htokens Hmarkers.
  assert (Hlines : count_lines EmptyString = Returns (0, 0, 0)).
  { unfold count_lines. rewrite Htokens.
    by rewrite (markers_leave_sets_empty tokens Hmarkers). }
  assert (Hcount :
    count_statements EmptyString exclude_name_patterns = Returns 0).
  { unfold count_statements. by rewrite Hparse. }
  split_and!; [done|done|].
  intros Hopen. unfold analyze_file, analyze_file_try.
  by rewrite Hopen, Hcount, Hlines.
Qed.

End analyze_file_facts.

(** ** The theorems at the sample inputs *)

(** C5 at the sample text: the tokens lie on rows 1 to 5 and the counts are
    ordered. *)
Lemma count_lines_ordered_on_sample :
  @count_lines sample_files comment_and_block = Returns (5, 4, 4)
  ∧ rows_within 5 comment_and_block_tokens
  ∧ (5 ≥ 4)%nat ∧ (4 ≥ 4)%nat ∧ (4 ≥ 0)%nat.
Proof.
  assert (Hrows : rows_within 5 comment_and_block_tokens).
  { unfold rows_within, comment_and_block_tokens.
    repeat apply Forall_cons_2; [..|apply Forall_nil_2];
      intros Hmarker;
      first [ split; vm_compute; discriminate
            | exfalso; apply Hmarker; compute_done ]. }
  destruct (@count_lines_ordered sample_files comment_and_block 5 4 4 eq_refl)
    as (Htotal & Hnonblank & Hcommented & _).
  split_and!; [reflexivity|exact Hrows| |exact Hnonblank|exact Hcommented].
  apply Htotal. intros tokens Htokens.
  injection Htokens as <-. exact Hrows.
Defined.

(** C6 at the sample library, which tokenizes the text as CPython does. *)
Lemma comment_and_block_counts_on_sample :
  @generate_tokens sample_files comment_and_block
  = Returns comment_and_block_tokens
  ∧ @count_lines sample_files comment_and_block = Returns (5, 4, 4).
Proof.
  split; [reflexivity|].
  exact (proj1 (@comment_and_block_counts sample_files eq_refl)).
Defined.

(** C7 at the sample directory: a file that is not there, a file with an
    unbalanced bracket and a file that is read and analyzed. *)
Lemma analyze_file_outcomes_on_sample :
  @analyze_file sample_files "missing.py" None
  = {| returned := Returns None; logged := ["Failed to open: missing.py"] |}
  ∧ @analyze_file sample_files "broken.py" None
    = {| returned := Returns None;
         logged := ["File has syntax error: broken.py"] |}
  ∧ @analyze_file sample_files "notes.py" None
    = {| returned := Returns (Some (5, 4, 0, 4)); logged := [] |}.
Proof.
  split_and!.
  - exact (proj1 (@analyze_file_outcomes sample_files "missing.py" None)
             FileNotFoundError eq_refl eq_refl).
  - exact (proj1 (proj2 (@analyze_file_outcomes sample_files "broken.py" None))
             unbalanced SyntaxError eq_refl eq_refl eq_refl).
  - exact (proj1 (proj2 (proj2 (proj2
             (@analyze_file_outcomes sample_files "notes.py" None))))
             comment_and_block 0 5 4 4 eq_refl eq_refl eq_refl).
Defined.

(** C7 (as stated) fails: a file that is not UTF-8 cannot be read, and a
    text with a NUL character is not a text of the grammar, yet neither
    gives [None] and a message.  Reading raises [UnicodeDecodeError] and
    [ast.parse] (of CPython 3.11) raises [ValueError]; neither is an
    [OSError], a [SyntaxError] or a [TokenError], and both leave
    [analyze_file]. *)
Lemma undecodable_and_nul_files_raise :
  @open_read unreadable_files "latin1.py" = Raises UnicodeDecodeError
  ∧ @analyze_file unreadable_files "latin1.py" None
    = {| returned := Raises UnicodeDecodeError; logged := [] |}
  ∧ @open_read unreadable_files "nul.py" = Returns nul_text
  ∧ @ast_parse unreadable_files nul_text = Raises ValueError
  ∧ @analyze_file unreadable_files "nul.py" None
    = {| returned := Raises ValueError; logged := [] |}.
Proof. by split_and!. Qed.

(** C8 where the parser hands back a node that is no statement: the
    assertion fails and the error leaves [analyze_file]. *)
Lemma assertion_error_leaves_analyze_file :
  @count_statements stray_node EmptyString None = Raises AssertionError
  ∧ @analyze_file stray_node "any.py" None
    = {| returned := Raises AssertionError; logged := [] |}.
Proof.
  split; [reflexivity|].
  exact (proj2 (proj2 (proj2
           (@unrecognized_statement_kinds stray_node "any.py" None
              [] [] [] [] [] [] 0)))
           EmptyString eq_refl eq_refl).
Defined.

(** C10 at the sample directory, whose [empty.py] holds the empty text. *)
Lemma empty_source_on_sample :
  @count_lines sample_files EmptyString = Returns (0, 0, 0)
  ∧ @count_statements sample_files EmptyString None = Returns 0
  ∧ @analyze_file sample_files "empty.py" None
    = {| returned := Returns (Some (0, 0, 0, 0)); logged := [] |}.
Proof.
  assert (Hmarkers :
    Forall (λ t, tokenize.type t ∈ marker_types) empty_tokens).
  { apply Forall_cons_2; [compute_done|apply Forall_nil_2]. }
  destruct (@empty_source sample_files "empty.py" None empty_tokens
              eq_refl eq_refl Hmarkers) as (Hlines & Hcount & Hfile).
  split_and!; [exact Hlines|exact Hcount|exact (Hfile eq_refl)].
Defined.

(** ** More on the walk of [count_statements] *)

Section walk_facts.
Import ast.
Context `{PyLib}.
Variable exclude_name_patterns : list re.Pattern.

Local Abbreviation callback := (_node_effective_count exclude_name_patterns).
Local Abbreviation visit := (tranverse_ast_stmt callback).

Lemma for_each_raises (stmts : list node) :
  Forall (λ n, ∀ count, raises_on_stray_only (walkable n) (visit n count))
         stmts →
  ∀ count,
    raises_on_stray_only (forallb walkable stmts) (for_each visit stmts count).
Proof.
  induction 1 as [|n stmts Hn _ IH]; intros count; [done|].
  run_counter. specialize (Hn count).
  destruct (tranverse_ast_stmt _ n count) as [[[] count']|e]; cbn in *.
  - specialize (IH count').
    destruct (for_each _ stmts count') as [|e]; [done|].
    destruct IH as [-> ->]. by rewrite andb_false_r.
  - destruct Hn as [-> ->]. done.
Qed.

Lemma visit_raises (n : node) (count : nat) :
  raises_on_stray_only (walkable n) (visit n count).
Proof.
  revert count. induction n as [n IH] using node_children_ind.
  intros count.
  destruct n; cbn [children] in IH;
    repeat (apply Forall_app in IH as [? IH]);
    run_counter;
    repeat match goal with
    | |- context [if existsb ?f ?l then _ else _] =>
        destruct (existsb f l); cbn
    | |- context [if is_await_yield_call ?v then _ else _] =>
        destruct (is_await_yield_call v); cbn
    end;
    try done;
    repeat match goal with
    | Hl : Forall _ ?l |- context [for_each _ ?l ?c] =>
        let Hr := fresh "Hr" in
        pose proof (for_each_raises l Hl c) as Hr;
        destruct (for_each _ l c) as [[[] ?]|?]; cbn in Hr |- *;
        [|destruct Hr as [-> Hr]; rewrite Hr]
    end;
    rewrite ?andb_false_r; try done.
Qed.

(** X1: what a walk adds to the counter does not depend on where the
    counter stands, and the counter never goes down: a walk that returns
    [total] from [count] returns [total + k] from [count + k], and a walk
    that raises from [count] raises the same from [count + k]. *)
Theorem walk_adds_fixed_amount (n : node) (count k : nat) :
  (∀ total, visit n count = Returns (tt, total) →
     (count ≤ total)%nat ∧ visit n (count + k) = Returns (tt, total + k))
  ∧ (∀ e, visit n count = Raises e → visit n (count + k) = Raises e).
Proof.
  split.
  - intros total Hcount. split.
    + pose proof (visit_shift exclude_name_patterns n 0 count) as Hzero.
      cbn [Nat.add] in Hzero. rewrite Hcount in Hzero.
      destruct (tranverse_ast_stmt _ n 0) as [[[] from_zero]|e];
        cbn in Hzero; [|done].
      injection Hzero as ->. lia.
    + by rewrite visit_shift, Hcount.
  - intros e Hcount. by rewrite visit_shift, Hcount.
Qed.

(** X2: [count_statements] raises what [ast.parse] raises; and when the text
    is parsed, an [AssertionError] leaves [count_statements] only if the
    tree is not walkable, that is, has a node that is not a statement where
    the walk may enter.  On a walkable tree no [AssertionError] is raised. *)
Theorem count_statements_raises (source_code : string) :
  (∀ e, ast_parse source_code = Raises e →
        count_statements source_code (Some exclude_name_patterns) = Raises e)
  ∧ (∀ root_node,
        ast_parse source_code = Returns root_node →
        count_statements source_code (Some exclude_name_patterns)
        = Raises AssertionError →
        walkable root_node = false).
Proof.
  unfold count_statements. split.
  - by intros e ->.
  - intros root_node ->. cbn.
    pose proof (visit_raises root_node 0) as Hraises.
    destruct (tranverse_ast_stmt _ root_node 0) as [[[] count]|e']; [done|].
    intros _. by destruct Hraises as [_ Hstray].
Qed.

(** X3: a [for], [async for], [while] or [if] statement counts one for
    itself plus what its body and its [else] part count. *)
Theorem branches_count_one_plus_both (body orelse : list node)
    (count in_body in_orelse : nat) :
  for_each visit body 0 = Returns (tt, in_body) →
  for_each visit orelse 0 = Returns (tt, in_orelse) →
  Forall (λ loop : list node → list node → node,
      visit (loop body orelse) count
      = Returns (tt, count + 1 + in_body + in_orelse))
    [For; AsyncFor; While; If].
Proof.
  intros Hbody Horelse.
  repeat apply Forall_cons_2; [..|apply Forall_nil_2].
  all: run_counter.
  all: change (count + 1) with (0 + (count + 1)).
  all: rewrite walk_shift, Hbody; cbn.
  all: change (in_body + (count + 1)) with (0 + (in_body + (count + 1))).
  all: rewrite walk_shift, Horelse; cbn.
  all: do 2 f_equal; lia.
Qed.

(** X4: a [try] statement counts one for itself plus what its body, its
    handlers, its [else] part and its [finally] part count, and each
    handler counts one plus its body. *)
Theorem try_counts_one_plus_parts
    (body handlers orelse finalbody handler_body : list node)
    (count in_body in_handlers in_orelse in_finalbody in_handler : nat) :
  for_each visit body 0 = Returns (tt, in_body) →
  for_each visit handlers 0 = Returns (tt, in_handlers) →
  for_each visit orelse 0 = Returns (tt, in_orelse) →
  for_each visit finalbody 0 = Returns (tt, in_finalbody) →
  for_each visit handler_body 0 = Returns (tt, in_handler) →
  visit (Try body handlers orelse finalbody) count
  = Returns (tt, count + 1 + in_body + in_handlers + in_orelse
                 + in_finalbody)
  ∧ visit (ExceptHandler handler_body) count
    = Returns (tt, count + 1 + in_handler).
Proof.
  intros Hbody Hhandlers Horelse Hfinalbody Hhandler.
  split; run_counter.
  - change (count + 1) with (0 + (count + 1)).
    rewrite walk_shift, Hbody; cbn.
    change (in_body + (count + 1)) with (0 + (in_body + (count + 1))).
    rewrite walk_shift, Hhandlers; cbn.
    change (in_handlers + (in_body + (count + 1)))
      with (0 + (in_handlers + (in_body + (count + 1)))).
    rewrite walk_shift, Horelse; cbn.
    change (in_orelse + (in_handlers + (in_body + (count + 1))))
      with (0 + (in_orelse + (in_handlers + (in_body + (count + 1))))).
    rewrite walk_shift, Hfinalbody; cbn.
    do 2 f_equal; lia.
  - change (count + 1) with (0 + (count + 1)).
    rewrite walk_shift, Hhandler; cbn. do 2 f_equal; lia.
Qed.

(** X5: statement counts add up: the count of a module is the sum of the
    counts of two parts its statements are split in, and if the first part
    makes the walk raise, so does the whole. *)
Theorem statement_lists_add_up (first second : list node) :
  (∀ in_first in_second,
      visit (Module first) 0 = Returns (tt, in_first) →
      visit (Module second) 0 = Returns (tt, in_second) →
      visit (Module (first ++ second)) 0
      = Returns (tt, in_first + in_second))
  ∧ (∀ e, visit (Module first) 0 = Raises e →
          visit (Module (first ++ second)) 0 = Raises e).
Proof.
  rewrite !visit_module. split.
  - intros in_first in_second Hfirst Hsecond.
    rewrite for_each_app, Hfirst.
    change in_first with (0 + in_first).
    rewrite walk_shift, Hsecond. cbn. do 2 f_equal; lia.
  - intros e Hfirst. by rewrite for_each_app, Hfirst.
Qed.

End walk_facts.

(** X3 at a body of one and an [else] part of two [pass] statements. *)
Lemma branches_count_one_plus_both_on_sample :
  Forall (λ loop : list ast.node → list ast.node → ast.node,
      tranverse_ast_stmt (_node_effective_count [])
        (loop [ast.Pass] [ast.Pass; ast.Pass]) 0
      = Returns (tt, 0 + 1 + 1 + 2))
    [ast.For; ast.AsyncFor; ast.While; ast.If].
Proof.
  exact (branches_count_one_plus_both [] [ast.Pass] [ast.Pass; ast.Pass]
           0 1 2 eq_refl eq_refl).
Defined.

(** X4 at a [try] with one statement in each part and one handler. *)
Lemma try_counts_one_plus_parts_on_sample :
  tranverse_ast_stmt (_node_effective_count [])
    (ast.Try [ast.Pass] [ast.ExceptHandler [ast.Pass]] [ast.Pass] [ast.Pass])
    0
  = Returns (tt, 0 + 1 + 1 + 2 + 1 + 1)
  ∧ tranverse_ast_stmt (_node_effective_count [])
      (ast.ExceptHandler [ast.Pass]) 0
    = Returns (tt, 0 + 1 + 1).
Proof.
  exact (try_counts_one_plus_parts [] [ast.Pass]
           [ast.ExceptHandler [ast.Pass]] [ast.Pass] [ast.Pass] [ast.Pass]
           0 1 2 1 1 1 eq_refl eq_refl eq_refl eq_refl eq_refl).
Defined.

Section more_patterns.
Import ast.
Variables exclude_name_patterns more : list re.Pattern.

Local Abbreviation visit :=
  (tranverse_ast_stmt (_node_effective_count exclude_name_patterns)).
Local Abbreviation visit_more :=
  (tranverse_ast_stmt (_node_effective_count (exclude_name_patterns ++ more))).

Lemma walk_grows (patterns : list re.Pattern) (stmts : list node)
    (count total : nat) :
  for_each (tranverse_ast_stmt (_node_effective_count patterns)) stmts count
  = Returns (tt, total) →
  (count ≤ total)%nat.
Proof.
  change count with (0 + count) at 1. rewrite walk_shift.
  destruct (for_each _ stmts 0) as [[[] from_zero]|e]; cbn; [|done].
  intros [= <-]. lia.
Qed.

Lemma for_each_more_patterns (stmts : list node) :
  Forall (λ n, ∀ count count' total total',
             (count' ≤ count)%nat →
             visit n count = Returns (tt, total) →
             visit_more n count' = Returns (tt, total') →
             (total' ≤ total)%nat) stmts →
  ∀ count count' total total',
    (count' ≤ count)%nat →
    for_each visit stmts count = Returns (tt, total) →
    for_each visit_more stmts count' = Returns (tt, total') →
    (total' ≤ total)%nat.
Proof.
  induction 1 as [|n stmts Hn _ IH]; intros count count' total total' Hle.
  - cbn. intros [= <-] [= <-]. done.
  - run_counter.
    destruct (tranverse_ast_stmt _ n count) as [[[] mid]|e] eqn:Hmid; [|done].
    destruct (tranverse_ast_stmt _ n count') as [[[] mid']|e] eqn:Hmid';
      [|done].
    apply IH. by eapply Hn.
Qed.

Lemma visit_more_patterns (n : node) (count count' total total' : nat) :
  (count' ≤ count)%nat →
  visit n count = Returns (tt, total) →
  visit_more n count' = Returns (tt, total') →
  (total' ≤ total)%nat.
Proof.
  revert count count' total total'.
  induction n as [n IH] using node_children_ind.
  intros count count' total total' Hle Hvisit Hmore.
  assert (Hle1 : (count' + 1 ≤ count + 1)%nat) by lia.
  destruct n; cbn [children] in IH;
    repeat (apply Forall_app in IH as [? IH]);
    revert Hvisit Hmore; run_counter; rewrite ?Nat.add_0_r;
    rewrite ?existsb_app;
    repeat match goal with
    | |- context [existsb ?f ?l] => destruct (existsb f l); cbn
    | |- context [if is_await_yield_call ?v then _ else _] =>
        destruct (is_await_yield_call v); cbn
    end;
    repeat match goal with
    | |- context [for_each ?f ?l ?c] =>
        let E := fresh "E" in
        destruct (for_each f l c) as [[[] ?]|?] eqn:E; cbn; [|done]
    end;
    unfold raise; try done;
    intros Hvisit Hmore;
    try (injection Hvisit as <-); try (injection Hmore as <-);
    repeat match goal with
    | Hl : Forall _ ?l,
      E : for_each _ ?l ?c = Returns (_, ?d),
      E' : for_each _ ?l ?c' = Returns (_, ?d') |- _ =>
        let Hd := fresh "Hd" in
        assert (Hd : (d' ≤ d)%nat)
          by (apply (for_each_more_patterns l Hl c c' d d'); [lia|exact E|exact E']);
        clear E'
    end;
    repeat match goal with
    | E : for_each _ _ _ = Returns _ |- _ => apply walk_grows in E
    end;
    try lia.
Qed.

(** X6: excluding more names never counts more: with further patterns added
    to the list, the count of a tree is at most what it was. *)
Theorem more_patterns_count_less (root_node : node) (total total' : nat) :
  visit root_node 0 = Returns (tt, total) →
  visit_more root_node 0 = Returns (tt, total') →
  (total' ≤ total)%nat.
Proof. by apply visit_more_patterns. Qed.

End more_patterns.

(** X6 at the nested test functions: three statements with no pattern, one
    with the pattern [test]. *)
Lemma more_patterns_count_less_on_sample :
  tranverse_ast_stmt (_node_effective_count []) nested_tests 0
  = Returns (tt, 3)
  ∧ tranverse_ast_stmt (_node_effective_count ([] ++ [test_pattern]))
      nested_tests 0
    = Returns (tt, 1)
  ∧ (1 ≤ 3)%nat.
Proof.
  split_and!; [reflexivity|reflexivity|].
  exact (more_patterns_count_less [] [test_pattern] nested_tests 3 1
           eq_refl eq_refl).
Defined.


(** ** More on the two loops of [count_lines] *)

Section row_facts.
Context `{PyLib}.

Lemma first_pass_step_spec (t : tokenize.TokenInfo)
    (nonblank inline : gset Z) :
  first_pass_step (nonblank, inline) t
  = (if marks_nonblank t
     then nonblank ∪ list_to_set (spanned_lines t) else nonblank,
     if is_comment_token t
     then inline ∪ list_to_set (spanned_lines t) else inline).
Proof.
  unfold first_pass_step, marks_nonblank, is_comment_token, marker_types,
    update.
  by destruct (tokenize.type t).
Qed.

Lemma first_pass_rows (tokens : list tokenize.TokenInfo)
    (nonblank inline : gset Z) (x : Z) :
  (x ∈ (foldl first_pass_step (nonblank, inline) tokens).1
   ↔ x ∈ nonblank
     ∨ ∃ t, t ∈ tokens ∧ marks_nonblank t = true ∧ x ∈ spanned_lines t)
  ∧ (x ∈ (foldl first_pass_step (nonblank, inline) tokens).2
     ↔ x ∈ inline
       ∨ ∃ t, t ∈ tokens ∧ is_comment_token t = true ∧ x ∈ spanned_lines t).
Proof.
  revert nonblank inline.
  induction tokens as [|t tokens IH]; intros nonblank inline.
  { cbn. split; (split; [by left|]);
      intros [?|(t & Ht & _)]; try done; by apply elem_of_nil in Ht. }
  cbn [foldl]. rewrite first_pass_step_spec.
  destruct (IH (if marks_nonblank t
                then nonblank ∪ list_to_set (spanned_lines t) else nonblank)
               (if is_comment_token t
                then inline ∪ list_to_set (spanned_lines t) else inline))
    as [-> ->].
  split.
  - destruct (marks_nonblank t) eqn:Hmark;
      rewrite ?elem_of_union, ?elem_of_list_to_set; split.
    + intros [[?|?]|(t' & ? & ? & ?)]; [by left| |].
      * right. exists t. by rewrite elem_of_cons; auto.
      * right. exists t'. by rewrite elem_of_cons; auto.
    + intros [?|(t' & [->|?]%elem_of_cons & ? & ?)];
        [by left; left|by left; right|].
      right. by exists t'.
    + intros [?|(t' & ? & ? & ?)]; [by left|].
      right. exists t'. by rewrite elem_of_cons; auto.
    + intros [?|(t' & [->|?]%elem_of_cons & ? & ?)];
        [by left|congruence|].
      right. by exists t'.
  - destruct (is_comment_token t) eqn:Hcomment;
      rewrite ?elem_of_union, ?elem_of_list_to_set; split.
    + intros [[?|?]|(t' & ? & ? & ?)]; [by left| |].
      * right. exists t. by rewrite elem_of_cons; auto.
      * right. exists t'. by rewrite elem_of_cons; auto.
    + intros [?|(t' & [->|?]%elem_of_cons & ? & ?)];
        [by left; left|by left; right|].
      right. by exists t'.
    + intros [?|(t' & ? & ? & ?)]; [by left|].
      right. exists t'. by rewrite elem_of_cons; auto.
    + intros [?|(t' & [->|?]%elem_of_cons & ? & ?)];
        [by left|congruence|].
      right. by exists t'.
Qed.

Lemma block_comment_span_rows (tokens : list tokenize.TokenInfo) (x : Z) :
  x ∈ block_comment_span tokens
  ↔ ∃ t, t ∈ tokens ∧ is_block_comment_token t = true ∧ x ∈ spanned_lines t.
Proof.
  induction tokens as [|t tokens IH]; cbn.
  { split; [by intros ?%not_elem_of_empty|].
    intros (t & Ht & _). by apply elem_of_nil in Ht. }
  rewrite elem_of_union, IH.
  destruct (is_block_comment_token t) eqn:Hblock;
    rewrite ?elem_of_list_to_set; split.
  - intros [?|(t' & ? & ? & ?)].
    + exists t. by rewrite elem_of_cons; auto.
    + exists t'. by rewrite elem_of_cons; auto.
  - intros (t' & [->|?]%elem_of_cons & ? & ?); [by left|].
    right. by exists t'.
  - intros [?%not_elem_of_empty|(t' & ? & ? & ?)]; [done|].
    exists t'. by rewrite elem_of_cons; auto.
  - intros (t' & [->|?]%elem_of_cons & ? & ?); [congruence|].
    right. by exists t'.
Qed.

(** The rows of the three sets, by the tokens that span them. *)
Lemma line_sets_rows (tokens : list tokenize.TokenInfo) (x : Z) :
  (x ∈ (line_sets tokens).1.1
   ↔ ∃ t, t ∈ tokens
          ∧ (marks_nonblank t = true ∨ is_block_comment_token t = true)
          ∧ x ∈ spanned_lines t)
  ∧ (x ∈ (line_sets tokens).1.2
     ↔ ∃ t, t ∈ tokens ∧ is_comment_token t = true ∧ x ∈ spanned_lines t)
  ∧ (x ∈ (line_sets tokens).2
     ↔ (∃ t, t ∈ tokens ∧ is_block_comment_token t = true
             ∧ x ∈ spanned_lines t)
       ∧ ¬ ∃ t, t ∈ tokens ∧ marks_nonblank t = true ∧ x ∈ spanned_lines t).
Proof.
  rewrite line_sets_spec. cbn.
  destruct (first_pass_rows tokens ∅ ∅ x) as [Hnonblank Hinline].
  rewrite elem_of_union, elem_of_difference, Hnonblank, Hinline,
    block_comment_span_rows.
  split_and!.
  - split.
    + intros [[?%not_elem_of_empty|(t & ? & ? & ?)]|(t & ? & ? & ?)];
        [done|exists t; auto|exists t; auto].
    + intros (t & ? & [?|?] & ?); [left; right|right]; by exists t.
  - split.
    + by intros [?%not_elem_of_empty|?].
    + by right.
  - split.
    + intros [? Hnot]. split; [done|]. intros ?. apply Hnot. by right.
    + intros [? Hnot]. split; [done|].
      by intros [?%not_elem_of_empty|?].
Qed.

(** X7: a row is nonblank exactly when a token that is neither a marker nor
    a string, or a string token that passes the block-comment test, spans
    it; it is an inline-comment row exactly when a comment token spans it;
    and it is a block-comment row exactly when a passing string token spans
    it and no token other than markers and strings does. *)
Theorem marked_rows (tokens : list tokenize.TokenInfo) (x : Z) :
  (x ∈ (line_sets tokens).1.1
   ↔ ∃ t, t ∈ tokens
          ∧ (marks_nonblank t = true ∨ is_block_comment_token t = true)
          ∧ x ∈ spanned_lines t)
  ∧ (x ∈ (line_sets tokens).1.2
     ↔ ∃ t, t ∈ tokens ∧ is_comment_token t = true ∧ x ∈ spanned_lines t)
  ∧ (x ∈ (line_sets tokens).2
     ↔ (∃ t, t ∈ tokens ∧ is_block_comment_token t = true
             ∧ x ∈ spanned_lines t)
       ∧ ¬ ∃ t, t ∈ tokens ∧ marks_nonblank t = true ∧ x ∈ spanned_lines t).
Proof. apply line_sets_rows. Qed.

(** X8: no row is both an inline-comment and a block-comment row, so the
    number of commented lines is the number of inline-comment rows plus the
    number of block-comment rows, and the number of nonblank lines is the
    number of rows the first loop marks plus the block-comment rows. *)
Theorem commented_is_inline_plus_block (source_code : string)
    (total nonblank commented : nat) :
  count_lines source_code = Returns (total, nonblank, commented) →
  ∃ tokens,
    generate_tokens source_code = Returns tokens
    ∧ (line_sets tokens).1.2 ## (line_sets tokens).2
    ∧ commented
      = (size (line_sets tokens).1.2 + size (line_sets tokens).2)%nat
    ∧ nonblank
      = (size (foldl first_pass_step (∅, ∅) tokens).1
         + size (line_sets tokens).2)%nat.
Proof.
  unfold count_lines.
  destruct (generate_tokens source_code) as [tokens|e]; [|done].
  destruct (line_sets tokens) as [[nonblank_lines inline] block] eqn:Hsets.
  intros [= <- <- <-]. exists tokens.
  rewrite line_sets_spec in Hsets |- *. cbn in Hsets |- *.
  injection Hsets as <- <- <-.
  pose proof (first_pass_subset tokens ∅ ∅) as Hsub.
  assert (Hdisjoint :
    (foldl first_pass_step (∅, ∅) tokens).2
    ## block_comment_span tokens ∖ (foldl first_pass_step (∅, ∅) tokens).1)
    by set_solver.
  split_and!; [done|done|by apply size_union|].
  rewrite <- size_union by set_solver. f_equal.
  apply set_eq. intros x.
  destruct (decide (x ∈ (foldl first_pass_step (∅, ∅) tokens).1));
    set_solver.
Qed.

(** X9: the counts do not depend on the order of the tokens. *)
Theorem token_order_irrelevant (tokens tokens' : list tokenize.TokenInfo) :
  tokens ≡ₚ tokens' → line_sets tokens = line_sets tokens'.
Proof.
  intros Hperm.
  assert (Hsame : ∀ P : tokenize.TokenInfo → Prop,
    (∃ t, t ∈ tokens ∧ P t) ↔ (∃ t, t ∈ tokens' ∧ P t)).
  { intros P. by setoid_rewrite Hperm. }
  destruct (line_sets tokens) as [[nonblank inline] block] eqn:Hsets.
  destruct (line_sets tokens') as [[nonblank' inline'] block'] eqn:Hsets'.
  f_equal; [f_equal|]; apply set_eq; intros x.
  - pose proof (proj1 (line_sets_rows tokens x)) as Hx.
    pose proof (proj1 (line_sets_rows tokens' x)) as Hx'.
    rewrite Hsets in Hx. rewrite Hsets' in Hx'. cbn in Hx, Hx'.
    by rewrite Hx, Hx', Hsame.
  - pose proof (proj1 (proj2 (line_sets_rows tokens x))) as Hx.
    pose proof (proj1 (proj2 (line_sets_rows tokens' x))) as Hx'.
    rewrite Hsets in Hx. rewrite Hsets' in Hx'. cbn in Hx, Hx'.
    by rewrite Hx, Hx', Hsame.
  - pose proof (proj2 (proj2 (line_sets_rows tokens x))) as Hx.
    pose proof (proj2 (proj2 (line_sets_rows tokens' x))) as Hx'.
    rewrite Hsets in Hx. rewrite Hsets' in Hx'. cbn in Hx, Hx'.
    by rewrite Hx, Hx', !Hsame.
Qed.

(** X10: a row that only markers and strings failing the block-comment
    test span is not nonblank: the inner lines of a string that is part of
    a larger statement are counted as blank lines. *)
Theorem string_rows_stay_blank (tokens : list tokenize.TokenInfo) (x : Z) :
  (∀ t, t ∈ tokens → x ∈ spanned_lines t →
        marks_nonblank t = false ∧ is_block_comment_token t = false) →
  x ∉ (line_sets tokens).1.1.
Proof.
  intros Hplain. rewrite (proj1 (line_sets_rows tokens x)).
  intros (t & Ht & Hmarks & Hx).
  destruct (Hplain t Ht Hx) as [Hmark Hblock].
  destruct Hmarks; congruence.
Qed.

Lemma readlines_from_length (cur s : string) :
  length (readlines_from cur s)
  = (count_char LF s
     + if match s with
          | EmptyString =>
              match cur with EmptyString => false | _ => true end
          | _ => unterminated s
          end
       then 1 else 0)%nat.
Proof.
  revert cur. induction s as [|a s IH]; intros cur; [by destruct cur|].
  cbn [readlines_from count_char]. case_bool_decide as Ha.
  - cbn [length]. rewrite IH. subst a. by destruct s.
  - rewrite IH. destruct s; [|done]. cbn. by rewrite bool_decide_eq_false_2.
Qed.

(** X11: the number of lines is the number of line feeds of the text, plus
    one when the text does not end with a line feed and is not empty;
    carriage returns and form feeds end no line. *)
Theorem total_lines_formula (source_code : string)
    (total nonblank commented : nat) :
  count_lines source_code = Returns (total, nonblank, commented) →
  total
  = (count_char LF source_code
     + if unterminated source_code then 1 else 0)%nat.
Proof.
  unfold count_lines.
  destruct (generate_tokens source_code) as [tokens|e]; [|done].
  destruct (line_sets tokens) as [[? ?] ?].
  intros [= <- _ _]. unfold readlines.
  rewrite readlines_from_length. by destruct source_code.
Qed.

(** X12: a text whose tokens are all markers, such as a text of blank lines
    only, has no nonblank and no commented line, whatever its number of
    lines. *)
Theorem markers_only_counts (source_code : string)
    (tokens : list tokenize.TokenInfo) :
  generate_tokens source_code = Returns tokens →
  Forall (λ t, tokenize.type t ∈ marker_types) tokens →
  count_lines source_code
  = Returns (length (readlines source_code), 0, 0).
Proof.
  intros Htokens Hmarkers. unfold count_lines. rewrite Htokens.
  by rewrite (markers_leave_sets_empty tokens Hmarkers).
Qed.

End row_facts.

(** X8 at the sample text: one inline-comment row and three block-comment
    rows. *)
Lemma commented_is_inline_plus_block_on_sample :
  @count_lines sample_files comment_and_block = Returns (5, 4, 4)
  ∧ ∃ tokens,
      @generate_tokens sample_files comment_and_block = Returns tokens
      ∧ (line_sets tokens).1.2 ## (line_sets tokens).2
      ∧ 4 = (size (line_sets tokens).1.2 + size (line_sets tokens).2)%nat
      ∧ 4 = (size (foldl first_pass_step (∅, ∅) tokens).1
             + size (line_sets tokens).2)%nat.
Proof.
  split; [reflexivity|].
  exact (@commented_is_inline_plus_block sample_files comment_and_block
           5 4 4 eq_refl).
Defined.

(** X9 at the sample tokens, read backwards. *)
Lemma token_order_irrelevant_on_sample :
  comment_and_block_tokens ≡ₚ reverse comment_and_block_tokens
  ∧ line_sets comment_and_block_tokens
    = line_sets (reverse comment_and_block_tokens).
Proof.
  assert (Hperm : comment_and_block_tokens
                  ≡ₚ reverse comment_and_block_tokens)
    by (symmetry; apply reverse_Permutation).
  split; [exact Hperm|].
  exact (token_order_irrelevant _ _ Hperm).
Defined.

(** X10 at the assignment of a two-line string: row 2 holds only the end of
    the string, so one of the two lines is nonblank. *)
Lemma string_rows_stay_blank_on_sample :
  @count_lines more_files assigned_string = Returns (2, 1, 0)
  ∧ 2%Z ∉ (line_sets assigned_string_tokens).1.1.
Proof.
  split; [reflexivity|].
  apply string_rows_stay_blank. intros t Ht Hx.
  unfold assigned_string_tokens in Ht.
  repeat (apply elem_of_cons in Ht as [->|Ht]);
    try (by apply elem_of_nil in Ht);
    try (split; reflexivity);
    unfold spanned_lines in Hx; apply elem_of_seqZ in Hx; cbn in Hx; lia.
Defined.

(** X11 at the sample text: five line feeds, the last one at the end. *)
Lemma total_lines_formula_on_sample :
  @count_lines sample_files comment_and_block = Returns (5, 4, 4)
  ∧ 5 = (count_char LF comment_and_block
         + if unterminated comment_and_block then 1 else 0)%nat.
Proof.
  split; [reflexivity|].
  exact (@total_lines_formula sample_files comment_and_block 5 4 4 eq_refl).
Defined.

(** X12 at the text of two blank lines. *)
Lemma markers_only_counts_on_sample :
  @count_lines more_files blank_lines = Returns (2, 0, 0).
Proof.
  refine (@markers_only_counts more_files blank_lines blank_lines_tokens
            eq_refl _).
  unfold blank_lines_tokens.
  repeat apply Forall_cons_2; [..|apply Forall_nil_2]; compute_done.
Defined.

(** ** More on [analyze_file] *)

Section analyze_file_more.
Context `{PyLib}.

(** X13: an exception raised while the file is read and analyzed that is
    neither an [OSError] nor a [SyntaxError] nor a [TokenError] (a
    [UnicodeDecodeError] from reading, say) is not caught: it leaves
    [analyze_file], and nothing is logged. *)
Theorem other_exceptions_leave_analyze_file (path : string)
    (exclude_name_patterns : option (list re.Pattern)) (e : exception) :
  analyze_file_try path exclude_name_patterns = Raises e →
  isinstance_exc e OSError = false →
  isinstance_exc e SyntaxError = false →
  isinstance_exc e TokenError = false →
  analyze_file path exclude_name_patterns
  = {| returned := Raises e; logged := [] |}.
Proof.
  intros Htry Hos Hsyntax Htoken.
  rewrite (analyze_file_raised _ _ e Htry), Hos, Hsyntax, Htoken.
  by destruct e.
Qed.

(** X14: [analyze_file] logs exactly when it returns [None]: then it logs
    one message, which names the path; when it returns a tuple or lets an
    exception through it logs nothing. *)
Theorem absent_exactly_when_logged (path : string)
    (exclude_name_patterns : option (list re.Pattern)) :
  match returned (analyze_file path exclude_name_patterns) with
  | Returns None =>
      logged (analyze_file path exclude_name_patterns)
      = ["Failed to open: " +:+ path]
      ∨ logged (analyze_file path exclude_name_patterns)
        = ["File has syntax error: " +:+ path]
  | _ => logged (analyze_file path exclude_name_patterns) = []
  end.
Proof.
  unfold analyze_file.
  destruct (analyze_file_try path exclude_name_patterns) as [r|e]; [done|].
  destruct (isinstance_exc e FileNotFoundError || isinstance_exc e OSError);
    cbn; [by left|].
  destruct (isinstance_exc e SyntaxError || isinstance_exc e TokenError);
    cbn; [by right|done].
Qed.

End analyze_file_more.

(** X13 at the file that is not UTF-8. *)
Lemma other_exceptions_leave_analyze_file_on_sample :
  @analyze_file more_files "latin1.py" None
  = {| returned := Raises UnicodeDecodeError; logged := [] |}.
Proof.
  exact (@other_exceptions_leave_analyze_file more_files "latin1.py" None
           UnicodeDecodeError eq_refl eq_refl eq_refl eq_refl).
Defined.

(** ** [find_all_py_files] and [main] *)

Section scan_facts.
Context `{PyLib} `{FileSystem}.

Lemma exclusion_message_find (exclude_file_patterns : list re.Pattern)
    (fn : string) :
  exclusion_message exclude_file_patterns fn
  = match List.find (λ p, re.matches p fn) exclude_file_patterns with
    | Some p => Some ("Exclude " +:+ fn +:+ " by pattern " +:+ pattern_str p)
    | None => None
    end.
Proof.
  induction exclude_file_patterns as [|p rest IH]; [done|]. cbn.
  by destruct (re.matches p fn).
Qed.

Lemma find_existsb {A} (f : A → bool) (l : list A) :
  existsb f l = match List.find f l with Some _ => true | None => false end.
Proof.
  induction l as [|a l IH]; [done|]. cbn. by destruct (f a).
Qed.

Lemma scan_fold (exclude_file_patterns : list re.Pattern)
    (paths yielded messages : list string) :
  foldl (scan_step exclude_file_patterns) (yielded, messages) paths
  = ((yielded
      ++ List.filter
           (λ fn, is_file fn
                  && negb (existsb (λ p, re.matches p fn)
                             exclude_file_patterns))
           paths)%list,
     (messages
      ++ map (scan_line exclude_file_patterns) (List.filter is_file paths))%list).
Proof.
  revert yielded messages.
  induction paths as [|path paths IH]; intros yielded messages.
  { cbn. by rewrite !app_nil_r. }
  cbn [foldl List.filter].
  destruct (scan_step exclude_file_patterns (yielded, messages) path)
    as [yielded' messages'] eqn:Hstep.
  rewrite IH. unfold scan_step in Hstep.
  rewrite exclusion_message_find, find_existsb in *.
  unfold scan_line at 2.
  destruct (is_file path); cbn in Hstep |- *.
  - destruct (List.find _ exclude_file_patterns); cbn;
      injection Hstep as <- <-; by rewrite <- ?app_assoc.
  - by injection Hstep as <- <-.
Qed.

(** X15: when the root directory exists, [find_all_py_files] yields, in the
    order of the directory walk, exactly the paths that are files and whose
    name no exclusion pattern matches; when it does not exist, it yields
    nothing. *)
Theorem find_all_py_files_yields (root_dir : string)
    (exclude_file_patterns : option (list re.Pattern)) :
  (find_all_py_files root_dir exclude_file_patterns).1
  = if path_exists root_dir
    then List.filter
           (λ fn, is_file fn
                  && negb (existsb (λ p, re.matches p fn)
                             (default [] exclude_file_patterns)))
           (glob_py root_dir)
    else [].
Proof.
  unfold find_all_py_files. destruct (path_exists root_dir); [|done].
  cbn. by rewrite scan_fold.
Qed.

(** X16: when the root directory exists, [find_all_py_files] logs one line
    for the scan and then one line for every path that is a file, in
    order: its exclusion, naming the first pattern that matches, or its
    inclusion; a path that is not a file leaves no line.  When the root
    directory does not exist, it logs that and nothing else. *)
Theorem find_all_py_files_log (root_dir : string)
    (exclude_file_patterns : option (list re.Pattern)) :
  (find_all_py_files root_dir exclude_file_patterns).2
  = if path_exists root_dir
    then ("Scanning .py files under " +:+ root_dir)
         :: map (scan_line (default [] exclude_file_patterns))
              (List.filter is_file (glob_py root_dir))
    else ["Root directory " +:+ root_dir +:+ " does not exist"].
Proof.
  unfold find_all_py_files. destruct (path_exists root_dir); [|done].
  cbn. by rewrite scan_fold.
Qed.

Lemma raising_logs_nothing (fn : string)
    (exclude_name_patterns : option (list re.Pattern)) (e : exception) :
  returned (analyze_file fn exclude_name_patterns) = Raises e →
  logged (analyze_file fn exclude_name_patterns) = [].
Proof.
  unfold analyze_file.
  destruct (analyze_file_try fn exclude_name_patterns); [done|].
  destruct (isinstance_exc _ FileNotFoundError || isinstance_exc _ OSError);
    [done|].
  by destruct (isinstance_exc _ SyntaxError || isinstance_exc _ TokenError).
Qed.

Lemma add_results_cons (t : totals) (r : nat * nat * nat * nat)
    (results : list (nat * nat * nat * nat)) :
  add_results
    {| num_file := num_file t + 1;
       total_num_line := total_num_line t + r.1.1.1;
       total_num_nonblank_line := total_num_nonblank_line t + r.1.1.2;
       total_num_statement := total_num_statement t + r.1.2;
       total_num_commented_line := total_num_commented_line t + r.2 |}
    results
  = add_results t (r :: results).
Proof. unfold add_results. cbn. f_equal; lia. Qed.

Lemma add_results_nil (t : totals) : add_results t [] = t.
Proof. destruct t. unfold add_results. cbn. f_equal; lia. Qed.

Lemma analyzed_cons (exclude_name_patterns : list re.Pattern) (fn : string)
    (filenames : list string) :
  analyzed exclude_name_patterns (fn :: filenames)
  = match returned (analyze_file fn (Some exclude_name_patterns)) with
    | Returns (Some r) => r :: analyzed exclude_name_patterns filenames
    | _ => analyzed exclude_name_patterns filenames
    end.
Proof.
  unfold analyzed. cbn.
  by destruct (returned (analyze_file fn (Some exclude_name_patterns)))
    as [[r|]|e].
Qed.

(** The loop of [main] over a first stretch of files none of which lets an
    exception through. *)
Lemma analyze_all_app (exclude_name_patterns : list re.Pattern)
    (before rest : list string) (t : totals) (log : list string) :
  Forall (λ fn, ∀ e, returned (analyze_file fn (Some exclude_name_patterns))
                     ≠ Raises e) before →
  analyze_all exclude_name_patterns (before ++ rest) t log
  = analyze_all exclude_name_patterns rest
      (add_results t (analyzed exclude_name_patterns before))
      (log ++ concat (map (file_messages exclude_name_patterns) before))%list.
Proof.
  intros Hall. revert t log.
  induction Hall as [|fn before Hfn _ IH]; intros t log.
  { cbn. by rewrite add_results_nil, app_nil_r. }
  cbn [app analyze_all map concat]. rewrite analyzed_cons.
  unfold file_messages at 1.
  destruct (returned (analyze_file fn (Some exclude_name_patterns)))
    as [[[[[num_line num_nonblank] num_statement] num_commented]|]|e] eqn:Hr.
  - rewrite IH. rewrite <- add_results_cons. cbn.
    by rewrite <- !app_assoc.
  - rewrite IH. by rewrite app_nil_r, <- !app_assoc.
  - by destruct (Hfn e).
Qed.

(** X17: when the patterns compile and no file lets an exception through,
    [main] returns; the totals it reports are the number of files for which
    [analyze_file] returned a tuple and the sums of their four counts (a
    file that was skipped with [None] adds nothing), and the log holds the
    lines of the directory scan, then the lines of each file in turn, then
    the overall result. *)
Theorem main_adds_up (root_dir output_file : string)
    (exclude_file_patterns exclude_name_patterns : option (list string))
    (file_patterns name_patterns : list re.Pattern) :
  compile_patterns exclude_file_patterns = Some file_patterns →
  compile_patterns exclude_name_patterns = Some name_patterns →
  Forall (λ fn, ∀ e, returned (analyze_file fn (Some name_patterns))
                     ≠ Raises e)
         (find_all_py_files root_dir (Some file_patterns)).1 →
  main root_dir output_file exclude_file_patterns exclude_name_patterns
  = let scan := find_all_py_files root_dir (Some file_patterns) in
    let sums := add_results no_totals (analyzed name_patterns scan.1) in
    {| ended := None;
       reached := sums;
       written :=
         (scan.2 ++ concat (map (file_messages name_patterns) scan.1)
          ++ [overall_message sums])%list |}.
Proof.
  intros Hfile Hname Hall. unfold main. rewrite Hfile, Hname.
  destruct (find_all_py_files root_dir (Some file_patterns))
    as [filenames log].
  cbn in Hall |- *.
  pose proof (analyze_all_app name_patterns filenames [] no_totals log Hall)
    as Happ.
  rewrite app_nil_r in Happ. rewrite Happ. cbn.
  by rewrite <- app_assoc.
Qed.

(** X18: when a file lets an exception through, [main] ends with that
    exception at the first such file: the files after it are not analyzed,
    the totals are those of the files before it, and no overall result is
    logged. *)
Theorem main_stops_at_first_exception (root_dir output_file : string)
    (exclude_file_patterns exclude_name_patterns : option (list string))
    (file_patterns name_patterns : list re.Pattern)
    (before after : list string) (fn : string) (e : exception) :
  compile_patterns exclude_file_patterns = Some file_patterns →
  compile_patterns exclude_name_patterns = Some name_patterns →
  (find_all_py_files root_dir (Some file_patterns)).1
  = (before ++ fn :: after)%list →
  Forall (λ fn, ∀ e, returned (analyze_file fn (Some name_patterns))
                     ≠ Raises e) before →
  returned (analyze_file fn (Some name_patterns)) = Raises e →
  main root_dir output_file exclude_file_patterns exclude_name_patterns
  = {| ended := Some (Raised e);
       reached := add_results no_totals (analyzed name_patterns before);
       written :=
         ((find_all_py_files root_dir (Some file_patterns)).2
          ++ concat (map (file_messages name_patterns) before))%list |}.
Proof.
  intros Hfile Hname Hfiles Hall Hraises. unfold main.
  rewrite Hfile, Hname.
  destruct (find_all_py_files root_dir (Some file_patterns))
    as [filenames log].
  cbn in Hfiles |- *. subst filenames.
  rewrite analyze_all_app by done. cbn [analyze_all].
  rewrite Hraises, (raising_logs_nothing _ _ e Hraises). cbn.
  by rewrite app_nil_r.
Qed.

End scan_facts.

(** X17 at the sample directory: of the three files that are scanned and
    not excluded, one has an unbalanced bracket and is skipped. *)
Lemma main_adds_up_on_sample :
  reached (@main sample_files sample_tree "." "count_lines.log"
             (Some ["test"]) (Some ["test"]))
  = {| num_file := 2; total_num_line := 5; total_num_nonblank_line := 4;
       total_num_statement := 0; total_num_commented_line := 4 |}.
Proof.
  rewrite (@main_adds_up sample_files sample_tree "." "count_lines.log"
             (Some ["test"]) (Some ["test"]) [test_pattern] [test_pattern]
             eq_refl eq_refl).
  - reflexivity.
  - repeat apply Forall_cons_2; [..|apply Forall_nil_2];
      intros e; vm_compute; discriminate.
Defined.

(** X18 where every file parses to a node that is no statement: the run
    ends at the first file, after the lines of the directory scan. *)
Lemma main_stops_at_first_exception_on_sample :
  @main stray_node sample_tree "." "count_lines.log"
    (Some ["test"]) (Some ["test"])
  = {| ended := Some (Raised AssertionError);
       reached := no_totals;
       written :=
         ["Scanning .py files under ."; "Include notes.py";
          "Exclude test_notes.py by pattern re.compile('test')";
          "Include broken.py"; "Include empty.py"] |}.
Proof.
  exact (@main_stops_at_first_exception stray_node sample_tree
           "." "count_lines.log" (Some ["test"]) (Some ["test"])
           [test_pattern] [test_pattern] [] ["broken.py"; "empty.py"]
           "notes.py" AssertionError eq_refl eq_refl eq_refl
           (Forall_nil_2 _) eq_refl).
Defined.

(** ** Patterns that exclude the same names *)

Section same_exclusions.
Import ast.
Variables callback callback' : node → M bool.
Hypothesis same_answers : ∀ n count, callback n count = callback' n count.

Lemma for_each_same (stmts : list node) :
  Forall (λ n, ∀ count, tranverse_ast_stmt callback n count
                        = tranverse_ast_stmt callback' n count) stmts →
  ∀ count,
    for_each (tranverse_ast_stmt callback) stmts count
    = for_each (tranverse_ast_stmt callback') stmts count.
Proof.
  induction 1 as [|n stmts Hn _ IH]; intros count; [done|].
  run_counter. rewrite Hn.
  by destruct (tranverse_ast_stmt callback' n count) as [[[] ?]|?].
Qed.

Lemma walk_same (n : node) (count : nat) :
  tranverse_ast_stmt callback n count = tranverse_ast_stmt callback' n count.
Proof.
  revert count. induction n as [n IH] using node_children_ind.
  intros count.
  destruct n; cbn [children] in IH;
    repeat (apply Forall_app in IH as [? IH]);
    cbn [tranverse_ast_stmt]; unfold mbind, M_bind, bind;
    rewrite same_answers;
    destruct (callback' _ count) as [[[] ?]|?]; cbn; try done;
    repeat (rewrite for_each_same by assumption;
            try match goal with
            | |- context [match for_each ?f ?l ?c with _ => _ end] =>
                destruct (for_each f l c) as [[[] ?]|?]; cbn
            end; try done).
Qed.
End same_exclusions.

(** X19: the count depends on the exclusion patterns only through the names
    they exclude: two pattern lists that match the same names, whatever
    their order, length and repetitions, give the same result on every
    tree. *)
Theorem same_exclusions_same_count (patterns patterns' : list re.Pattern)
    (root_node : ast.node) :
  (∀ name, existsb (λ p, re.matches p name) patterns
           = existsb (λ p, re.matches p name) patterns') →
  tranverse_ast_stmt (_node_effective_count patterns) root_node 0
  = tranverse_ast_stmt (_node_effective_count patterns') root_node 0.
Proof.
  intros Hsame. apply walk_same. intros n count.
  rewrite !callback_spec. destruct n; try done; by rewrite Hsame.
Qed.

(** X19 at a pattern listed once and listed twice. *)
Lemma same_exclusions_same_count_on_sample :
  tranverse_ast_stmt (_node_effective_count [test_pattern]) nested_tests 0
  = tranverse_ast_stmt (_node_effective_count [test_pattern; test_pattern])
      nested_tests 0.
Proof.
  apply same_exclusions_same_count. intros name. cbn.
  by destruct (String.prefix "test" name).
Defined.
